(** * BanMan: the ban registry of [src/banman.cpp]

    A shallow embedding of [BanMan] (the banned-subnet map, its dirty flag,
    the expiry sweep, the consolidation done by [Ban], and the write-through
    persistence of [DumpBanlist]) together with the properties the
    specification states about it.

    Modelling decisions.
    - [banmap_t] is [std::map<CSubNet, CBanEntry>]: a finite map with
      exact-match keys, here a [gmap].  The loops of the source walk the map
      in key order; the model walks [map_to_list].  Every loop of the file
      either stops at the first entry satisfying a test or collects keys that
      are erased afterwards, so the outcome does not depend on the order
      (lemmas [Ban_scan_None_iff], [Ban_scan_Some], [overlap_loop_true],
      [sweep_loop_lookup_gone] and [sweep_loop_lookup_kept] are stated for
      an arbitrary enumeration).
    - [int64_t] is [Z]; the one addition the file performs wraps around.
    - [GetTime()], [m_ban_db.Write] and the UI callback are the outside
      world: a clock that is read (and may have advanced) at every call of
      [GetTime], a store whose writes succeed or fail, and a trace of the
      events the object emits, in program order.
    - [LOCK(m_cs_banned)] is a scoped recursive lock; taking and releasing it
      are recorded in the trace so that "after the lock is released" can be
      said of an event.
    - Logging ([LogPrint], [LogPrintf]) and the [GetTimeMillis] readings that
      only feed it are left out.  So are the discouragement filter, whose
      type is declared outside the sources, and [Unban(const CNetAddr&)],
      which only converts its argument and calls [Unban(const CSubNet&)]. *)

From stdpp Require Import base option list gmap fin_maps.
From Stdlib Require Import ZArith Lia.

Local Open Scope Z_scope.

(** ** 64-bit signed integers *)

Definition int64_min : Z := - 2 ^ 63.
Definition int64_max : Z := 2 ^ 63 - 1.

Definition int64_range (z : Z) : Prop := int64_min <= z <= int64_max.

(** Two's complement wrap-around of a mathematical integer into [int64_t]. *)
Definition int64_wrap (z : Z) : Z := (z + 2 ^ 63) mod 2 ^ 64 - 2 ^ 63.

Definition int64_add (a b : Z) : Z := int64_wrap (a + b).

(** ** Ban entries *)

(** Modelled from the spec: [CBanEntry] is declared in a header that is not
    part of the sources; the record has the two timestamps of the data model
    ("created_at", "ban_until").  [CBanEntry(t)] sets the creation time. *)
Record CBanEntry : Type := mkBanEntry { nCreateTime : Z; nBanUntil : Z }.

Definition CBanEntry_at (n_create_time : Z) : CBanEntry :=
  {| nCreateTime := n_create_time; nBanUntil := 0 |}.

Definition set_nBanUntil (e : CBanEntry) (t : Z) : CBanEntry :=
  {| nCreateTime := nCreateTime e; nBanUntil := t |}.

(** ** Subnets *)

(** The subnet type and its containment test come from [netaddress.h], which
    is not part of the sources: [IsSuperset a b] is [a.IsSuperset(b)].  Keys
    of the ban map are compared for identity only. *)
Class SubNetOps (CSubNet : Type) := IsSuperset : CSubNet -> CSubNet -> bool.

Section BanMan.

Context {CSubNet : Type} `{Countable CSubNet} `{SubNetOps CSubNet}.

Abbreviation banmap_t := (gmap CSubNet CBanEntry).

(** ** Object state and the outside world *)

Inductive Event : Type :=
| EvLock
| EvUnlock
| EvBannedListChanged
| EvDbWrite (banmap : banmap_t) (ok : bool).

(** [m_client_interface] is an optional pointer: [true] when it is set. *)
Record BanMan : Type := mkBanMan {
  m_banned : banmap_t;
  m_is_dirty : bool;
  m_client_interface : bool;
  m_default_ban_time : Z
}.

(** [clock n] is what the [n]-th call of [GetTime()] returns and
    [write_ok n] whether the [n]-th call of [m_ban_db.Write] succeeds. *)
Record World : Type := mkWorld {
  clock : nat -> Z;
  ticks : nat;
  write_ok : nat -> bool;
  writes : nat;
  trace : list Event
}.

Record State : Type := mkState { obj : BanMan; env : World }.

Definition M (A : Type) : Type := State -> A * State.

Definition ret {A} (a : A) : M A := fun s => (a, s).

Definition bind {A B} (c : M A) (k : A -> M B) : M B :=
  fun s => let (a, s') := c s in k a s'.

Notation "x <~ c ; k" := (bind c (fun x => k))
  (at level 20, c at level 100, k at level 200, only parsing).
Notation "c ;; k" := (bind c (fun _ => k))
  (at level 100, k at level 200, only parsing, right associativity).

Definition gets {A} (f : BanMan -> A) : M A := fun s => (f (obj s), s).

Definition set_m_banned (b : banmap_t) : M unit := fun s =>
  (tt, {| obj := {| m_banned := b;
                    m_is_dirty := m_is_dirty (obj s);
                    m_client_interface := m_client_interface (obj s);
                    m_default_ban_time := m_default_ban_time (obj s) |};
          env := env s |}).

Definition set_m_is_dirty (d : bool) : M unit := fun s =>
  (tt, {| obj := {| m_banned := m_banned (obj s);
                    m_is_dirty := d;
                    m_client_interface := m_client_interface (obj s);
                    m_default_ban_time := m_default_ban_time (obj s) |};
          env := env s |}).

Definition emit (e : Event) : M unit := fun s =>
  (tt, {| obj := obj s;
          env := {| clock := clock (env s); ticks := ticks (env s);
                    write_ok := write_ok (env s); writes := writes (env s);
                    trace := trace (env s) ++ [e] |} |}).

Definition GetTime : M Z := fun s =>
  (clock (env s) (ticks (env s)),
   {| obj := obj s;
      env := {| clock := clock (env s); ticks := S (ticks (env s));
                write_ok := write_ok (env s); writes := writes (env s);
                trace := trace (env s) |} |}).

(** [m_ban_db.Write(banmap)]: the outcome is the store's. *)
Definition m_ban_db_Write (banmap : banmap_t) : M bool := fun s =>
  let ok := write_ok (env s) (writes (env s)) in
  (ok,
   {| obj := obj s;
      env := {| clock := clock (env s); ticks := ticks (env s);
                write_ok := write_ok (env s); writes := S (writes (env s));
                trace := trace (env s) ++ [EvDbWrite banmap ok] |} |}).

Definition LOCK : M unit := emit EvLock.
Definition UNLOCK : M unit := emit EvUnlock.

(** [if (m_client_interface) m_client_interface->BannedListChanged();] *)
Definition BannedListChanged : M unit :=
  ci <~ gets m_client_interface;
  if ci then emit EvBannedListChanged else ret tt.

(** ** The operations of [banman.cpp] *)

Definition BannedSetIsDirty : M bool :=
  LOCK;;
  d <~ gets m_is_dirty;
  UNLOCK;;
  ret d.

Definition SetBannedSetDirty (dirty : bool) : M unit :=
  LOCK;;
  set_m_is_dirty dirty;;
  UNLOCK.

(** The [while] loop of [SweepBanned]: one step per entry of the map as it
    was when the loop started ([erase(it++)] removes the current entry and
    moves on).  Carries [m_banned], [m_is_dirty] and [notify_ui]. *)
Fixpoint sweep_loop (now : Z) (its : list (CSubNet * CBanEntry))
    (banned : banmap_t) (is_dirty notify_ui : bool)
    : banmap_t * bool * bool :=
  match its with
  | [] => (banned, is_dirty, notify_ui)
  | (sub_net, ban_entry) :: rest =>
      if now >? nBanUntil ban_entry
      then sweep_loop now rest (delete sub_net banned) true true
      else sweep_loop now rest banned is_dirty notify_ui
  end.

Definition SweepBanned : M unit :=
  now <~ GetTime;
  LOCK;;
  banned <~ gets m_banned;
  is_dirty <~ gets m_is_dirty;
  let '(banned', is_dirty', notify_ui) :=
    sweep_loop now (map_to_list banned) banned is_dirty false in
  set_m_banned banned';;
  set_m_is_dirty is_dirty';;
  UNLOCK;;
  if notify_ui then BannedListChanged else ret tt.

Definition GetBanned : M banmap_t :=
  LOCK;;
  SweepBanned;;
  banmap <~ gets m_banned;
  UNLOCK;;
  ret banmap.

Definition SetBanned (banmap : banmap_t) : M unit :=
  LOCK;;
  set_m_banned banmap;;
  set_m_is_dirty true;;
  UNLOCK.

Definition DumpBanlist : M unit :=
  SweepBanned;;
  dirty <~ BannedSetIsDirty;
  if negb dirty then ret tt
  else
    banmap <~ GetBanned;
    ok <~ m_ban_db_Write banmap;
    if ok then SetBannedSetDirty false else ret tt.

(** Lines 64-68: the block of [ClearBanned] under the lock. *)
Definition ClearBanned_locked : M unit :=
  LOCK;;
  set_m_banned ∅;;
  set_m_is_dirty true;;
  UNLOCK.

Definition ClearBanned : M unit :=
  ClearBanned_locked;;
  DumpBanlist;;
  BannedListChanged.

(** The [for] loop of [HasBannedAddresses], leaving at the first hit. *)
Fixpoint overlap_loop (current_time : Z) (sub_net : CSubNet)
    (its : list (CSubNet * CBanEntry)) : bool :=
  match its with
  | [] => false
  | (banned_sub_net, ban_entry) :: rest =>
      if (IsSuperset banned_sub_net sub_net || IsSuperset sub_net banned_sub_net)
         && (current_time <? nBanUntil ban_entry)
      then true
      else overlap_loop current_time sub_net rest
  end.

Definition HasBannedAddresses (sub_net : CSubNet) : M bool :=
  current_time <~ GetTime;
  LOCK;;
  banned <~ gets m_banned;
  let r := overlap_loop current_time sub_net (map_to_list banned) in
  UNLOCK;;
  ret r.

(** The first [for] loop of [Ban]: [None] is the [return false] taken
    inside the loop, [Some l] the final [entries_to_delete]. *)
Fixpoint Ban_scan (sub_net : CSubNet) (new_ban_entry : CBanEntry)
    (its : list (CSubNet * CBanEntry)) (entries_to_delete : list CSubNet)
    : option (list CSubNet) :=
  match its with
  | [] => Some entries_to_delete
  | (banned_sub_net, ban_entry) :: rest =>
      if IsSuperset sub_net banned_sub_net
         && (nBanUntil new_ban_entry >? nBanUntil ban_entry)
      then Ban_scan sub_net new_ban_entry rest
                    (entries_to_delete ++ [banned_sub_net])
      else if IsSuperset banned_sub_net sub_net
              && (nBanUntil new_ban_entry <=? nBanUntil ban_entry)
      then None
      else Ban_scan sub_net new_ban_entry rest entries_to_delete
  end.

(** The second [for] loop of [Ban]. *)
Fixpoint erase_all (entries_to_delete : list CSubNet) (banned : banmap_t)
    : banmap_t :=
  match entries_to_delete with
  | [] => banned
  | it :: rest => erase_all rest (delete it banned)
  end.

(** Lines 105-113: the candidate entry. *)
Definition Ban_entry (ban_time_offset : Z) (since_unix_epoch : bool)
    : M CBanEntry :=
  t_create <~ GetTime;
  default_ban_time <~ gets m_default_ban_time;
  let normalized_ban_time_offset :=
    if ban_time_offset <=? 0 then default_ban_time else ban_time_offset in
  let normalized_since_unix_epoch :=
    if ban_time_offset <=? 0 then false else since_unix_epoch in
  base <~ (if normalized_since_unix_epoch then ret 0 else GetTime);
  ret (set_nBanUntil (CBanEntry_at t_create)
                     (int64_add base normalized_ban_time_offset)).

(** Lines 115-137: the block under the lock.  [false] is the early
    [return false]; the lock is released on both ways out. *)
Definition Ban_locked (sub_net : CSubNet) (new_ban_entry : CBanEntry)
    : M bool :=
  LOCK;;
  banned <~ gets m_banned;
  match Ban_scan sub_net new_ban_entry (map_to_list banned) [] with
  | None => UNLOCK;; ret false
  | Some entries_to_delete =>
      set_m_banned (<[sub_net := new_ban_entry]>
                      (erase_all entries_to_delete banned));;
      set_m_is_dirty true;;
      UNLOCK;;
      ret true
  end.

Definition Ban (sub_net : CSubNet) (ban_time_offset : Z)
    (since_unix_epoch : bool) : M bool :=
  new_ban_entry <~ Ban_entry ban_time_offset since_unix_epoch;
  inserted <~ Ban_locked sub_net new_ban_entry;
  if negb inserted then ret false
  else
    BannedListChanged;;
    DumpBanlist;;
    ret true.

(** [Unban(const CSubNet&)], lines 153-157: the block under the lock.
    [erase] returns the number of keys removed; [false] is the early
    [return false]. *)
Definition Unban_locked (sub_net : CSubNet) : M bool :=
  LOCK;;
  banned <~ gets m_banned;
  match banned !! sub_net with
  | None => UNLOCK;; ret false
  | Some _ =>
      set_m_banned (delete sub_net banned);;
      set_m_is_dirty true;;
      UNLOCK;;
      ret true
  end.

Definition Unban (sub_net : CSubNet) : M bool :=
  erased <~ Unban_locked sub_net;
  if negb erased then ret false
  else
    BannedListChanged;;
    DumpBanlist;;
    ret true.

(** ** The loops, independently of the order of enumeration *)

(** Entries that a sweep at time [now] keeps, and whether it drops any. *)
Definition live_entries (now : Z) (banned : banmap_t) : banmap_t :=
  filter (fun kv => ¬ now > nBanUntil kv.2) banned.

Definition any_expired (now : Z) (its : list (CSubNet * CBanEntry)) : bool :=
  existsb (fun kv => now >? nBanUntil kv.2) its.

(** ** What each operation does to the state *)

(** The events an action adds to the trace when run from [s]. *)
Definition events_of {A} (c : M A) (s : State) : list Event :=
  drop (length (trace (env s))) (trace (env (c s).2)).

Definition log (evs : list Event) (s : State) : State :=
  {| obj := obj s;
     env := {| clock := clock (env s); ticks := ticks (env s);
               write_ok := write_ok (env s); writes := writes (env s);
               trace := trace (env s) ++ evs |} |}.

(** The state a sweep leaves: [GetTime] has been read once. *)
Definition sweep_state (s : State) : State :=
  let now := clock (env s) (ticks (env s)) in
  let removed := any_expired now (map_to_list (m_banned (obj s))) in
  {| obj := {| m_banned := live_entries now (m_banned (obj s));
               m_is_dirty := m_is_dirty (obj s) || removed;
               m_client_interface := m_client_interface (obj s);
               m_default_ban_time := m_default_ban_time (obj s) |};
     env := {| clock := clock (env s); ticks := S (ticks (env s));
               write_ok := write_ok (env s); writes := writes (env s);
               trace := trace (env s) ++ [EvLock; EvUnlock]
                        ++ (if removed && m_client_interface (obj s)
                            then [EvBannedListChanged] else []) |} |}.

(** Assignments to [m_banned] and [m_is_dirty], and a finished write. *)
Definition with_banned (banned : banmap_t) (is_dirty : bool) (s : State)
    : State :=
  {| obj := {| m_banned := banned;
               m_is_dirty := is_dirty;
               m_client_interface := m_client_interface (obj s);
               m_default_ban_time := m_default_ban_time (obj s) |};
     env := env s |}.

Definition wrote (banmap : banmap_t) (s : State) : State :=
  {| obj := obj s;
     env := {| clock := clock (env s); ticks := ticks (env s);
               write_ok := write_ok (env s); writes := S (writes (env s));
               trace := trace (env s)
                        ++ [EvDbWrite banmap
                              (write_ok (env s) (writes (env s)))] |} |}.

Definition notification (s : State) : list Event :=
  if m_client_interface (obj s) then [EvBannedListChanged] else [].

(** The state [DumpBanlist] leaves. *)
Definition dump_state (s : State) : State :=
  let s1 := log [EvLock; EvUnlock] (sweep_state s) in
  if negb (m_is_dirty (obj s1)) then s1
  else
    let s2 := log [EvUnlock] (sweep_state (log [EvLock] s1)) in
    let s3 := wrote (m_banned (obj s2)) s2 in
    if write_ok (env s2) (writes (env s2))
    then log [EvLock; EvUnlock] (with_banned (m_banned (obj s3)) false s3)
    else s3.

(** *** Overlap query *)

Definition overlaps (a b : CSubNet) : bool :=
  IsSuperset a b || IsSuperset b a.

Definition ticked (s : State) : State :=
  {| obj := obj s;
     env := {| clock := clock (env s); ticks := S (ticks (env s));
               write_ok := write_ok (env s); writes := writes (env s);
               trace := trace (env s) |} |}.

(** *** Consolidation scan of [Ban] *)

(** An existing entry the new ban takes over (first branch of the loop),
    and one that makes the new ban redundant (second branch). *)
Definition absorbs (sub_net : CSubNet) (new_ban_entry : CBanEntry)
    (kv : CSubNet * CBanEntry) : bool :=
  IsSuperset sub_net kv.1 && (nBanUntil new_ban_entry >? nBanUntil kv.2).

Definition rejects (sub_net : CSubNet) (new_ban_entry : CBanEntry)
    (kv : CSubNet * CBanEntry) : bool :=
  IsSuperset kv.1 sub_net && (nBanUntil new_ban_entry <=? nBanUntil kv.2).

(** The map [Ban] installs when it is not rejected. *)
Definition consolidated (sub_net : CSubNet) (new_ban_entry : CBanEntry)
    (banned : banmap_t) : banmap_t :=
  <[sub_net := new_ban_entry]>
    (filter (fun kv => absorbs sub_net new_ban_entry kv = false) banned).

Definition rejected (sub_net : CSubNet) (new_ban_entry : CBanEntry)
    (banned : banmap_t) : bool :=
  existsb (rejects sub_net new_ban_entry) (map_to_list banned).

(** *** The candidate entry of [Ban] *)

(** [Ban] reads the clock for the creation time and, unless the offset is
    taken since the epoch, once more for the expiry. *)
Definition relative_to_now (ban_time_offset : Z) (since_unix_epoch : bool)
    : bool :=
  negb (if ban_time_offset <=? 0 then false else since_unix_epoch).

Definition candidate_entry (ban_time_offset : Z) (since_unix_epoch : bool)
    (s : State) : CBanEntry :=
  {| nCreateTime := clock (env s) (ticks (env s));
     nBanUntil :=
       int64_add
         (if relative_to_now ban_time_offset since_unix_epoch
          then clock (env s) (S (ticks (env s))) else 0)
         (if ban_time_offset <=? 0 then m_default_ban_time (obj s)
          else ban_time_offset) |}.

Definition after_candidate (ban_time_offset : Z) (since_unix_epoch : bool)
    (s : State) : State :=
  if relative_to_now ban_time_offset since_unix_epoch
  then ticked (ticked s) else ticked s.


(** ** Construction and destruction *)

(** The members as they are before the body of the constructor runs:
    [m_banned] is default-constructed, the pointer and the default ban time
    come from the arguments. *)
Definition BanMan_members (client_interface : bool) (default_ban_time : Z)
    : BanMan :=
  {| m_banned := ∅; m_is_dirty := false;
     m_client_interface := client_interface;
     m_default_ban_time := default_ban_time |}.

(** The body of [BanMan::BanMan] from line 23 on.  [read] is what
    [m_ban_db.Read(banmap)] gives: [Some banmap] when it returns [true],
    [None] when the file is missing or invalid. *)
Definition BanMan_load (read : option banmap_t) : M unit :=
  set_m_is_dirty false;;
  match read with
  | Some banmap =>
      SetBanned banmap;;
      SetBannedSetDirty false;;
      SweepBanned
  | None =>
      SetBannedSetDirty true;;
      DumpBanlist
  end.

(** The object [BanMan::BanMan] builds, in the world it was built in. *)
Definition BanMan_built (client_interface : bool) (default_ban_time : Z)
    (read : option banmap_t) (w : World) : State :=
  (BanMan_load read
     {| obj := BanMan_members client_interface default_ban_time;
        env := w |}).2.

(** [BanMan::BanMan].  The first component tells whether the progress
    message [InitMessage] went to the UI (line 20). *)
Definition BanMan_new (client_interface : bool) (default_ban_time : Z)
    (read : option banmap_t) (w : World) : bool * State :=
  (client_interface,
   BanMan_built client_interface default_ban_time read w).

(** [BanMan::~BanMan]. *)
Definition BanMan_delete : M unit := DumpBanlist.

(** ** Events of a sweep and of a flush *)

Definition sweep_events (s : State) : list Event :=
  [EvLock; EvUnlock]
  ++ (if any_expired (clock (env s) (ticks (env s)))
            (map_to_list (m_banned (obj s)))
         && m_client_interface (obj s)
      then [EvBannedListChanged] else []).

Definition dump_events (s : State) : list Event :=
  let s1 := log [EvLock; EvUnlock] (sweep_state s) in
  sweep_events s ++ [EvLock; EvUnlock]
  ++ (if m_is_dirty (obj s1)
      then [EvLock] ++ sweep_events s1 ++ [EvUnlock]
           ++ [EvDbWrite (m_banned (obj (sweep_state s1)))
                 (write_ok (env s) (writes (env s)))]
           ++ (if write_ok (env s) (writes (env s))
               then [EvLock; EvUnlock] else [])
      else []).

(** ** Lock discipline *)

(** Walks a trace with the number of locks held: [None] when a lock is
    released that is not held, or when the store is written under the lock;
    otherwise the number of locks held at the end. *)
Fixpoint lock_walk (held : nat) (evs : list Event) : option nat :=
  match evs with
  | [] => Some held
  | EvLock :: rest => lock_walk (S held) rest
  | EvUnlock :: rest =>
      match held with
      | O => None
      | S h => lock_walk h rest
      end
  | EvBannedListChanged :: rest => lock_walk held rest
  | EvDbWrite _ _ :: rest =>
      match held with
      | O => lock_walk O rest
      | S _ => None
      end
  end.

(** ** Consolidated maps *)

(** No entry is outlived by a different entry whose subnet contains it. *)
Definition no_shadowed (banned : banmap_t) : Prop :=
  forall k1 e1 k2 e2,
    banned !! k1 = Some e1 -> banned !! k2 = Some e2 -> k1 <> k2 ->
    IsSuperset k1 k2 = true -> nBanUntil e1 > nBanUntil e2 -> False.

(** The same object in another world. *)
Definition in_world (w : World) (s : State) : State :=
  {| obj := obj s; env := w |}.

End BanMan.

Arguments Event CSubNet {_ _}.
Arguments BanMan CSubNet {_ _}.
Arguments World CSubNet {_ _}.
Arguments State CSubNet {_ _}.
Arguments M CSubNet {_ _} A.

(** ** A concrete instance: IPv4 ranges *)

(** Modelled from the spec: a subnet is "a contiguous range of network
    addresses (including the single-address degenerate case)".  An IPv4 range
    is a pair (address, prefix length); [a] is a superset of [b] when its
    prefix is not longer and both agree on the first [a.2] bits.  Used for the
    worked examples only. *)
#[global] Instance ipv4_ops : SubNetOps (N * N) := fun a b =>
  ((a.2 <=? b.2) && (N.shiftr a.1 (32 - a.2) =? N.shiftr b.1 (32 - a.2)))%N.

Definition ipv4 (a b c d len : N) : N * N :=
  (N.shiftl a 24 + N.shiftl b 16 + N.shiftl c 8 + d, len)%N.

Definition net_10_8 : N * N := ipv4 10 0 0 0 8.
Definition net_10_0_16 : N * N := ipv4 10 0 0 0 16.
Definition net_10_0_0_24 : N * N := ipv4 10 0 0 0 24.
Definition host_10_0_0_5 : N * N := ipv4 10 0 0 5 32.
Definition net_192_168_16 : N * N := ipv4 192 168 0 0 16.

(** A world whose clock stands at [t] and whose store answers [ok]. *)
Definition still_world (t : Z) (ok : bool) : World (N * N) :=
  {| clock := fun _ => t; ticks := 0; write_ok := fun _ => ok; writes := 0;
     trace := [] |}.

(** A registry with a UI attached and a default ban time of one day. *)
Definition registry (banned : gmap (N * N) CBanEntry) (is_dirty : bool)
    : BanMan (N * N) :=
  {| m_banned := banned; m_is_dirty := is_dirty; m_client_interface := true;
     m_default_ban_time := 86400 |}.

Definition example_state (banned : gmap (N * N) CBanEntry) (is_dirty : bool)
    (t : Z) (ok : bool) : State (N * N) :=
  {| obj := registry banned is_dirty; env := still_world t ok |}.

(** The clock stands at 1000 in the examples; a ban of 3600 seconds made
    then lasts until 4600 and one of 7200 seconds until 8200. *)

(** The /16 is banned for 7200 seconds (scenario 2 of the specification). *)
Definition wide_ban_state : State (N * N) :=
  example_state {[ net_10_0_16 := mkBanEntry 1000 8200 ]} false 1000 true.

(** The /24 is banned for 3600 seconds (scenario 3 of the specification). *)
Definition narrow_ban_state : State (N * N) :=
  example_state {[ net_10_0_0_24 := mkBanEntry 1000 4600 ]} false 1000 true.

(** The /24 is banned for 3600 seconds inside a /8 banned for much longer. *)
Definition nested_ban_state : State (N * N) :=
  example_state
    (<[ net_10_0_0_24 := mkBanEntry 1000 4600 ]>
       {[ net_10_8 := mkBanEntry 1000 100000 ]})
    false 1000 true.

(** One ban that ran out at 500, one that lasts until 2000. *)
Definition stale_ban_state : State (N * N) :=
  example_state
    (<[ net_10_0_0_24 := mkBanEntry 0 500 ]>
       {[ net_192_168_16 := mkBanEntry 0 2000 ]})
    false 1000 true.

(** A ban that runs out at this very second. *)
Definition boundary_ban_state : State (N * N) :=
  example_state {[ net_10_0_0_24 := mkBanEntry 0 1000 ]} false 1000 true.

(** Nothing banned, nothing to save. *)
Definition empty_state : State (N * N) := example_state ∅ false 1000 true.


(** The /24 is banned and the registry has not been saved yet. *)
Definition unsaved_ban_state : State (N * N) :=
  example_state {[ net_10_0_0_24 := mkBanEntry 1000 4600 ]} true 1000 true.

(** Two unrelated bans. *)
Definition two_ban_state : State (N * N) :=
  example_state
    (<[ net_10_0_0_24 := mkBanEntry 1000 4600 ]>
       {[ net_192_168_16 := mkBanEntry 1000 9000 ]})
    false 1000 true.

(** * Properties *)

Section BanManProofs.

Context {CSubNet : Type} `{Countable CSubNet} `{SubNetOps CSubNet}.

Abbreviation banmap_t := (gmap CSubNet CBanEntry).

Lemma gtb_true (a b : Z) : (a >? b) = true <-> a > b.
Proof. rewrite Z.gtb_ltb, Z.ltb_lt. lia. Qed.

Lemma gtb_false (a b : Z) : (a >? b) = false <-> a <= b.
Proof. rewrite Z.gtb_ltb, Z.ltb_ge. lia. Qed.

Lemma any_expired_true now (its : list (CSubNet * CBanEntry)) :
  any_expired now its = true <->
  exists k e, (k, e) ∈ its /\ now > nBanUntil e.
Proof.
  unfold any_expired. rewrite existsb_exists. split.
  - intros [[k e] [Hin Hgt]]. exists k, e. split.
    + by apply list_elem_of_In.
    + by apply gtb_true.
  - intros (k & e & Hin & Hgt). exists (k, e). split.
    + by apply list_elem_of_In.
    + by apply gtb_true.
Qed.

Lemma sweep_loop_flags (now : Z) (its : list (CSubNet * CBanEntry)) (banned : banmap_t) is_dirty notify_ui :
  (sweep_loop now its banned is_dirty notify_ui).1.2
    = is_dirty || any_expired now its
  /\ (sweep_loop now its banned is_dirty notify_ui).2
    = notify_ui || any_expired now its.
Proof.
  revert banned is_dirty notify_ui.
  induction its as [|[k e] rest IH]; intros banned is_dirty notify_ui; simpl.
  - by rewrite !orb_false_r.
  - destruct (now >? nBanUntil e); simpl.
    + destruct (IH (delete k banned) true true) as [-> ->].
      by rewrite !orb_true_r.
    + apply IH.
Qed.

Lemma sweep_loop_lookup_gone (now : Z) (its : list (CSubNet * CBanEntry)) (banned : banmap_t) is_dirty notify_ui k e :
  (k, e) ∈ its -> now > nBanUntil e ->
  (sweep_loop now its banned is_dirty notify_ui).1.1 !! k = None.
Proof.
  revert banned is_dirty notify_ui.
  induction its as [|[k' e'] rest IH]; intros banned is_dirty notify_ui Hin Hgt.
  - by apply elem_of_nil in Hin.
  - simpl. apply elem_of_cons in Hin as [Heq | Hin].
    + injection Heq as <- <-.
      apply gtb_true in Hgt. rewrite Hgt. clear IH Hgt.
      assert (Hdel : delete k banned !! k = None) by apply lookup_delete_eq.
      revert Hdel. generalize (delete k banned), true.
      induction rest as [|[k2 e2] rest IH2]; intros b d Hb; simpl; [done|].
      destruct (now >? nBanUntil e2); apply IH2; [|done].
      destruct (decide (k2 = k)) as [->|Hne].
      * apply lookup_delete_eq.
      * by rewrite lookup_delete_ne.
    + destruct (now >? nBanUntil e'); by apply IH.
Qed.

Lemma sweep_loop_lookup_kept (now : Z) (its : list (CSubNet * CBanEntry)) (banned : banmap_t) is_dirty notify_ui k :
  (forall e, (k, e) ∈ its -> now <= nBanUntil e) ->
  (sweep_loop now its banned is_dirty notify_ui).1.1 !! k = banned !! k.
Proof.
  revert banned is_dirty notify_ui.
  induction its as [|[k' e'] rest IH]; intros banned is_dirty notify_ui Hall;
    simpl; [done|].
  assert (Hrest : forall e, (k, e) ∈ rest -> now <= nBanUntil e).
  { intros e He. apply Hall. by apply elem_of_cons; right. }
  destruct (now >? nBanUntil e') eqn:Hgt.
  - rewrite IH by done.
    apply lookup_delete_ne. intros ->.
    apply gtb_true in Hgt.
    specialize (Hall e' ltac:(by apply elem_of_cons; left)). lia.
  - by apply IH.
Qed.

(** What the sweep loop computes on the entries of a map. *)
Lemma sweep_loop_map (now : Z) (banned : banmap_t) is_dirty notify_ui :
  sweep_loop now (map_to_list banned) banned is_dirty notify_ui
  = (live_entries now banned,
     is_dirty || any_expired now (map_to_list banned),
     notify_ui || any_expired now (map_to_list banned)).
Proof.
  pose proof (sweep_loop_flags now (map_to_list banned) banned
                is_dirty notify_ui) as [Hd Hn].
  destruct (sweep_loop now (map_to_list banned) banned is_dirty notify_ui)
    as [[b d] n] eqn:Hrun.
  simpl in Hd, Hn. subst d n. do 2 f_equal.
  apply map_eq. intros k. unfold live_entries.
  replace b with
    (sweep_loop now (map_to_list banned) banned is_dirty notify_ui).1.1
    by (by rewrite Hrun).
  destruct (banned !! k) as [e|] eqn:Hk.
  - destruct (decide (now > nBanUntil e)) as [Hgt|Hle].
    + rewrite (sweep_loop_lookup_gone now _ _ _ _ k e);
        [|by apply elem_of_map_to_list|done].
      symmetry. apply map_lookup_filter_None. right.
      intros e' He'. simpl. rewrite Hk in He'. injection He' as <-. tauto.
    + rewrite sweep_loop_lookup_kept.
      * rewrite Hk. symmetry. apply map_lookup_filter_Some. split; [done|].
        simpl. lia.
      * intros e' He'. apply elem_of_map_to_list in He'.
        rewrite Hk in He'. injection He' as <-. lia.
  - rewrite sweep_loop_lookup_kept.
    + rewrite Hk. symmetry. apply map_lookup_filter_None. by left.
    + intros e' He'. apply elem_of_map_to_list in He'. congruence.
Qed.

Lemma log_log (evs1 evs2 : list (Event CSubNet)) (s : State CSubNet) : log evs2 (log evs1 s) = log (evs1 ++ evs2) s.
Proof. unfold log; simpl. by rewrite app_assoc. Qed.

Lemma SweepBanned_run (s : State CSubNet) : SweepBanned s = (tt, sweep_state s).
Proof.
  unfold SweepBanned, sweep_state, bind, GetTime, LOCK, UNLOCK, emit, gets.
  cbn. rewrite sweep_loop_map. cbn.
  destruct (any_expired _ _); cbn.
  - unfold BannedListChanged, bind, gets, emit, ret. cbn.
    destruct (m_client_interface (obj s)); cbn;
      by rewrite <- ?app_assoc, ?orb_true_r, ?orb_false_r.
  - unfold ret. by rewrite <- ?app_assoc, ?orb_false_r.
Qed.

Lemma BannedListChanged_run (s : State CSubNet) :
  BannedListChanged s = (tt, log (notification s) s).
Proof.
  unfold BannedListChanged, notification, bind, gets, emit, ret, log.
  destruct s as [o w]; cbn.
  destruct (m_client_interface o); cbn; [done|].
  rewrite app_nil_r. by destruct w.
Qed.

Lemma BannedSetIsDirty_run (s : State CSubNet) :
  BannedSetIsDirty s = (m_is_dirty (obj s), log [EvLock; EvUnlock] s).
Proof.
  unfold BannedSetIsDirty, bind, LOCK, UNLOCK, gets, emit, ret, log; cbn.
  by rewrite <- app_assoc.
Qed.

Lemma SetBannedSetDirty_run dirty (s : State CSubNet) :
  SetBannedSetDirty dirty s
  = (tt, log [EvLock; EvUnlock] (with_banned (m_banned (obj s)) dirty s)).
Proof.
  unfold SetBannedSetDirty, bind, LOCK, UNLOCK, set_m_is_dirty, emit, log,
    with_banned; cbn.
  by rewrite <- app_assoc.
Qed.

Lemma SetBanned_run (banmap : banmap_t) (s : State CSubNet) :
  SetBanned banmap s = (tt, log [EvLock; EvUnlock] (with_banned banmap true s)).
Proof.
  unfold SetBanned, bind, LOCK, UNLOCK, set_m_banned, set_m_is_dirty, emit,
    log, with_banned; cbn.
  by rewrite <- app_assoc.
Qed.

Lemma GetBanned_run (s : State CSubNet) :
  GetBanned s
  = (live_entries (clock (env s) (ticks (env s))) (m_banned (obj s)),
     log [EvUnlock] (sweep_state (log [EvLock] s))).
Proof.
  unfold GetBanned, bind, LOCK, UNLOCK.
  change (emit EvLock s) with (tt, log [EvLock] s). cbv beta iota.
  rewrite SweepBanned_run. reflexivity.
Qed.

Lemma DumpBanlist_run (s : State CSubNet) : DumpBanlist s = (tt, dump_state s).
Proof.
  unfold DumpBanlist, dump_state, bind.
  rewrite SweepBanned_run, BannedSetIsDirty_run.
  change (m_is_dirty (obj (log [EvLock; EvUnlock] (sweep_state s))))
    with (m_is_dirty (obj (sweep_state s))).
  destruct (m_is_dirty (obj (sweep_state s))); cbn [negb]; [|done].
  rewrite GetBanned_run.
  set (s2 := log [EvUnlock] (sweep_state (log [EvLock] _))).
  change (m_ban_db_Write ?b s2)
    with (write_ok (env s2) (writes (env s2)), wrote b s2).
  cbv beta iota.
  destruct (write_ok (env s2) (writes (env s2))) eqn:Hok; [|done].
  by rewrite SetBannedSetDirty_run.
Qed.

Lemma ClearBanned_locked_run (s : State CSubNet) :
  ClearBanned_locked s
  = (tt, log [EvLock; EvUnlock] (with_banned ∅ true s)).
Proof.
  unfold ClearBanned_locked, bind, LOCK, UNLOCK, set_m_banned,
    set_m_is_dirty, emit, log, with_banned; cbn.
  by rewrite <- app_assoc.
Qed.

Lemma ClearBanned_run (s : State CSubNet) :
  ClearBanned s
  = (tt, let s1 := dump_state (log [EvLock; EvUnlock] (with_banned ∅ true s)) in
         log (notification s1) s1).
Proof.
  unfold ClearBanned, bind.
  rewrite ClearBanned_locked_run, DumpBanlist_run. cbv beta iota.
  by rewrite BannedListChanged_run.
Qed.

Lemma overlap_loop_true current_time (sub_net : CSubNet) its :
  overlap_loop current_time sub_net its = true <->
  exists k e, (k, e) ∈ its /\ overlaps k sub_net = true
              /\ current_time < nBanUntil e.
Proof.
  unfold overlaps. induction its as [|[k e] rest IH]; simpl.
  - split; [done|]. intros (k & e & Hin & _). by apply elem_of_nil in Hin.
  - destruct ((IsSuperset k sub_net || IsSuperset sub_net k)
              && (current_time <? nBanUntil e)) eqn:Hc.
    + split; [intros _|done]. apply andb_true_iff in Hc as [Ho Ht].
      exists k, e. split_and!; [by left|done|by apply Z.ltb_lt].
    + rewrite IH. split.
      * intros (k' & e' & Hin & Ho & Ht). exists k', e'.
        split_and!; [by right|done|done].
      * intros (k' & e' & Hin & Ho & Ht).
        apply elem_of_cons in Hin as [Heq|Hin].
        -- injection Heq as -> ->. apply Z.ltb_lt in Ht.
           rewrite Ho, Ht in Hc. done.
        -- by exists k', e'.
Qed.

Lemma HasBannedAddresses_run sub_net (s : State CSubNet) :
  HasBannedAddresses sub_net s
  = (overlap_loop (clock (env s) (ticks (env s))) sub_net
                  (map_to_list (m_banned (obj s))),
     log [EvLock; EvUnlock] (ticked s)).
Proof.
  unfold HasBannedAddresses, bind, GetTime, LOCK, UNLOCK, gets, emit, ret,
    log, ticked; cbn.
  by rewrite <- app_assoc.
Qed.

Lemma rejects_not_absorbs sub_net new_ban_entry (kv : CSubNet * CBanEntry) :
  rejects sub_net new_ban_entry kv = true ->
  absorbs sub_net new_ban_entry kv = false.
Proof.
  unfold rejects, absorbs. intros [_ Hle]%andb_true_iff.
  apply Z.leb_le in Hle. apply andb_false_iff. right.
  apply gtb_false. lia.
Qed.

Lemma Ban_scan_None_iff (sub_net : CSubNet) new_ban_entry its entries_to_delete :
  Ban_scan sub_net new_ban_entry its entries_to_delete = None <->
  exists kv, kv ∈ its /\ rejects sub_net new_ban_entry kv = true.
Proof.
  revert entries_to_delete.
  induction its as [|[k e] rest IH]; intros acc; simpl.
  - split; [done|]. intros (kv & Hin & _). by apply elem_of_nil in Hin.
  - destruct (IsSuperset sub_net k
              && (nBanUntil new_ban_entry >? nBanUntil e)) eqn:Ha.
    + rewrite IH. split.
      * intros (kv & Hin & Hr). exists kv. split; [by right|done].
      * intros (kv & Hin & Hr). apply elem_of_cons in Hin as [->|Hin].
        -- apply rejects_not_absorbs in Hr. unfold absorbs in Hr; simpl in Hr.
           congruence.
        -- by exists kv.
    + destruct (IsSuperset k sub_net
                && (nBanUntil new_ban_entry <=? nBanUntil e)) eqn:Hr.
      * split; [intros _|done]. exists (k, e). split; [by left|done].
      * rewrite IH. split.
        -- intros (kv & Hin & Hr'). exists kv. split; [by right|done].
        -- intros (kv & Hin & Hr'). apply elem_of_cons in Hin as [->|Hin].
           ++ unfold rejects in Hr'; simpl in Hr'. congruence.
           ++ by exists kv.
Qed.

Lemma Ban_scan_Some (sub_net : CSubNet) new_ban_entry its entries_to_delete l :
  Ban_scan sub_net new_ban_entry its entries_to_delete = Some l ->
  l = entries_to_delete
      ++ (List.filter (absorbs sub_net new_ban_entry) its).*1.
Proof.
  revert entries_to_delete.
  induction its as [|[k e] rest IH]; intros acc; simpl.
  - intros [= <-]. by rewrite app_nil_r.
  - unfold absorbs at 1; simpl.
    destruct (IsSuperset sub_net k
              && (nBanUntil new_ban_entry >? nBanUntil e)).
    + intros ->%IH. simpl. by rewrite <- app_assoc.
    + destruct (IsSuperset k sub_net
                && (nBanUntil new_ban_entry <=? nBanUntil e)); [done|].
      apply IH.
Qed.

Lemma erase_all_lookup entries_to_delete (banned : banmap_t) k :
  erase_all entries_to_delete banned !! k
  = if decide (k ∈ entries_to_delete) then None else banned !! k.
Proof.
  revert banned. induction entries_to_delete as [|k' rest IH]; intros banned;
    cbn [erase_all].
  - by rewrite decide_False by apply not_elem_of_nil.
  - rewrite IH. destruct (decide (k ∈ rest)) as [Hin|Hnin].
    + by rewrite decide_True by (by right).
    + destruct (decide (k = k')) as [->|Hne].
      * rewrite decide_True by (by left). apply lookup_delete_eq.
      * rewrite decide_False; [by apply lookup_delete_ne|].
        intros [?|?]%elem_of_cons; done.
Qed.

Lemma erase_absorbed sub_net new_ban_entry (banned : banmap_t) :
  erase_all (List.filter (absorbs sub_net new_ban_entry)
               (map_to_list banned)).*1 banned
  = filter (fun kv => absorbs sub_net new_ban_entry kv = false) banned.
Proof.
  apply map_eq. intros k. rewrite erase_all_lookup.
  destruct (banned !! k) as [e|] eqn:Hk.
  - destruct (absorbs sub_net new_ban_entry (k, e)) eqn:Ha.
    + rewrite decide_True.
      * symmetry. apply map_lookup_filter_None. right.
        intros e' He'. rewrite Hk in He'. injection He' as <-. congruence.
      * apply list_elem_of_fmap. exists (k, e). split; [done|].
        apply list_elem_of_In, filter_In. split; [|done].
        by apply list_elem_of_In, elem_of_map_to_list.
    + rewrite decide_False.
      * symmetry. by apply map_lookup_filter_Some.
      * intros ([k' e'] & -> & Hin)%list_elem_of_fmap.
        apply list_elem_of_In, filter_In in Hin as [Hin Ha'].
        apply list_elem_of_In, elem_of_map_to_list in Hin. simpl in *.
        rewrite Hk in Hin. injection Hin as <-. congruence.
  - rewrite (proj2 (map_lookup_filter_None _ _ _)) by (by left).
    by destruct (decide _).
Qed.

Lemma rejected_true sub_net new_ban_entry (banned : banmap_t) :
  rejected sub_net new_ban_entry banned = true <->
  exists k e, banned !! k = Some e
              /\ rejects sub_net new_ban_entry (k, e) = true.
Proof.
  unfold rejected. rewrite existsb_exists. split.
  - intros ([k e] & Hin & Hr). exists k, e. split; [|done].
    by apply elem_of_map_to_list, list_elem_of_In.
  - intros (k & e & Hk & Hr). exists (k, e). split; [|done].
    by apply list_elem_of_In, elem_of_map_to_list.
Qed.

Lemma Ban_locked_run sub_net new_ban_entry (s : State CSubNet) :
  Ban_locked sub_net new_ban_entry s
  = if rejected sub_net new_ban_entry (m_banned (obj s))
    then (false, log [EvLock; EvUnlock] s)
    else (true,
          log [EvLock; EvUnlock]
            (with_banned
               (consolidated sub_net new_ban_entry (m_banned (obj s)))
               true s)).
Proof.
  unfold Ban_locked, bind, LOCK, UNLOCK, gets, emit. cbv beta iota.
  cbn [obj].
  destruct (Ban_scan _ _ _ _) as [l|] eqn:Hscan.
  - assert (Hnr : rejected sub_net new_ban_entry (m_banned (obj s)) = false).
    { apply not_true_is_false. intros Hr. apply rejected_true in Hr
        as (k & e & Hk & Hr).
      assert (Ban_scan sub_net new_ban_entry
                (map_to_list (m_banned (obj s))) [] = None); [|congruence].
      apply Ban_scan_None_iff. exists (k, e).
      split; [by apply elem_of_map_to_list|done]. }
    rewrite Hnr. apply Ban_scan_Some in Hscan. simpl in Hscan. subst l.
    rewrite erase_absorbed.
    unfold set_m_banned, set_m_is_dirty, ret, log, with_banned, consolidated.
    cbn. by rewrite <- app_assoc.
  - assert (Hr : rejected sub_net new_ban_entry (m_banned (obj s)) = true).
    { apply Ban_scan_None_iff in Hscan as ([k e] & Hin & Hr).
      apply rejected_true. exists k, e.
      split; [by apply elem_of_map_to_list|done]. }
    rewrite Hr. unfold ret, log. cbn. by rewrite <- app_assoc.
Qed.

Lemma Ban_entry_run ban_time_offset since_unix_epoch (s : State CSubNet) :
  Ban_entry ban_time_offset since_unix_epoch s
  = (candidate_entry ban_time_offset since_unix_epoch s,
     after_candidate ban_time_offset since_unix_epoch s).
Proof.
  unfold Ban_entry, candidate_entry, after_candidate, relative_to_now,
    bind, GetTime, gets, ret, ticked.
  cbv beta iota. cbn [obj env clock ticks write_ok writes trace].
  destruct (ban_time_offset <=? 0); [done|].
  by destruct since_unix_epoch.
Qed.

Lemma after_candidate_obj ban_time_offset since_unix_epoch
    (s : State CSubNet) :
  obj (after_candidate ban_time_offset since_unix_epoch s) = obj s.
Proof. unfold after_candidate. by destruct (relative_to_now _ _). Qed.

Lemma Ban_run (sub_net : CSubNet) ban_time_offset since_unix_epoch
    (s : State CSubNet) :
  Ban sub_net ban_time_offset since_unix_epoch s
  = let new_ban_entry :=
      candidate_entry ban_time_offset since_unix_epoch s in
    let s0 := after_candidate ban_time_offset since_unix_epoch s in
    if rejected sub_net new_ban_entry (m_banned (obj s))
    then (false, log [EvLock; EvUnlock] s0)
    else (true,
          dump_state
            (log ([EvLock; EvUnlock] ++ notification s)
               (with_banned
                  (consolidated sub_net new_ban_entry (m_banned (obj s)))
                  true s0))).
Proof.
  unfold Ban, bind. rewrite Ban_entry_run. cbv beta iota zeta.
  rewrite Ban_locked_run, after_candidate_obj.
  destruct (rejected _ _ _); cbn [negb]; [done|].
  rewrite BannedListChanged_run, DumpBanlist_run. cbv beta iota.
  unfold ret. f_equal. f_equal. rewrite log_log. f_equal.
  unfold notification, log, with_banned; cbn.
  by rewrite after_candidate_obj.
Qed.

Lemma Unban_locked_run (sub_net : CSubNet) (s : State CSubNet) :
  Unban_locked sub_net s
  = match m_banned (obj s) !! sub_net with
    | None => (false, log [EvLock; EvUnlock] s)
    | Some _ =>
        (true,
         log [EvLock; EvUnlock]
           (with_banned (delete sub_net (m_banned (obj s))) true s))
    end.
Proof.
  unfold Unban_locked, bind, LOCK, UNLOCK, gets, emit. cbv beta iota.
  cbn [obj].
  destruct (m_banned (obj s) !! sub_net);
    unfold set_m_banned, set_m_is_dirty, ret, log, with_banned; cbn;
    by rewrite <- app_assoc.
Qed.

Lemma Unban_run (sub_net : CSubNet) (s : State CSubNet) :
  Unban sub_net s
  = match m_banned (obj s) !! sub_net with
    | None => (false, log [EvLock; EvUnlock] s)
    | Some _ =>
        (true,
         dump_state
           (log ([EvLock; EvUnlock] ++ notification s)
              (with_banned (delete sub_net (m_banned (obj s))) true s)))
    end.
Proof.
  unfold Unban, bind. rewrite Unban_locked_run.
  destruct (m_banned (obj s) !! sub_net); cbn [negb]; [|done].
  rewrite BannedListChanged_run, DumpBanlist_run. cbv beta iota.
  unfold ret. by rewrite log_log.
Qed.

(** *** Traces *)

Lemma events_of_intro {A} (c : M CSubNet A) (s : State CSubNet) evs :
  trace (env (c s).2) = trace (env s) ++ evs -> events_of c s = evs.
Proof. unfold events_of. intros ->. by rewrite drop_app_length. Qed.

Lemma sweep_state_trace (s : State CSubNet) :
  exists evs, trace (env (sweep_state s)) = trace (env s) ++ evs.
Proof. unfold sweep_state; cbn. eauto. Qed.

Lemma dump_state_trace (s : State CSubNet) :
  trace (env (dump_state s)) = trace (env s) ++ events_of DumpBanlist s.
Proof.
  assert (Hext : exists evs,
             trace (env (dump_state s)) = trace (env s) ++ evs).
  { unfold dump_state. cbv zeta.
    destruct (sweep_state_trace s) as [e1 H1].
    set (s1 := log [EvLock; EvUnlock] (sweep_state s)).
    assert (Hs1 : trace (env s1) = trace (env s) ++ e1 ++ [EvLock; EvUnlock]).
    { unfold s1. cbn [log env trace]. by rewrite H1, <- app_assoc. }
    destruct (negb (m_is_dirty (obj s1))); [eauto|].
    destruct (sweep_state_trace (log [EvLock] s1)) as [e2 H2].
    set (s2 := log [EvUnlock] (sweep_state (log [EvLock] s1))).
    assert (Hs2 : exists evs, trace (env s2) = trace (env s) ++ evs).
    { unfold s2. cbn [log env trace]. rewrite H2. cbn [log env trace].
      rewrite Hs1, <- !app_assoc. eauto. }
    destruct Hs2 as [e3 Hs2]. clearbody s2.
    destruct (write_ok (env s2) (writes (env s2)));
      cbn [wrote log with_banned env trace]; rewrite Hs2, <- ?app_assoc;
      eauto. }
  destruct Hext as [evs Hext]. rewrite Hext. f_equal. symmetry.
  apply events_of_intro. by rewrite DumpBanlist_run.
Qed.

Lemma after_candidate_env ban_time_offset since_unix_epoch
    (s : State CSubNet) :
  trace (env (after_candidate ban_time_offset since_unix_epoch s))
    = trace (env s)
  /\ writes (env (after_candidate ban_time_offset since_unix_epoch s))
    = writes (env s)
  /\ write_ok (env (after_candidate ban_time_offset since_unix_epoch s))
    = write_ok (env s)
  /\ clock (env (after_candidate ban_time_offset since_unix_epoch s))
    = clock (env s).
Proof. unfold after_candidate. by destruct (relative_to_now _ _). Qed.

(** *** Sweeps only remove *)

Lemma live_entries_lookup now (banned : banmap_t) k :
  live_entries now banned !! k
  = match banned !! k with
    | Some e => if now >? nBanUntil e then None else Some e
    | None => None
    end.
Proof.
  unfold live_entries. destruct (banned !! k) as [e|] eqn:Hk.
  - destruct (now >? nBanUntil e) eqn:Hgt.
    + apply map_lookup_filter_None. right. intros e' He'.
      rewrite Hk in He'. injection He' as <-. apply gtb_true in Hgt.
      simpl. tauto.
    + apply map_lookup_filter_Some. split; [done|].
      apply gtb_false in Hgt. simpl. lia.
  - apply map_lookup_filter_None. by left.
Qed.

Lemma live_entries_None now (banned : banmap_t) k :
  banned !! k = None -> live_entries now banned !! k = None.
Proof. intros Hk. by rewrite live_entries_lookup, Hk. Qed.

(** The map [DumpBanlist] leaves: swept once when nothing is to be
    written, twice (the second time by [GetBanned]) otherwise. *)
Lemma dump_state_banned (s : State CSubNet) :
  let t := ticks (env s) in
  m_banned (obj (dump_state s))
  = if m_is_dirty (obj (sweep_state s))
    then live_entries (clock (env s) (S t))
           (live_entries (clock (env s) t) (m_banned (obj s)))
    else live_entries (clock (env s) t) (m_banned (obj s)).
Proof.
  unfold dump_state. cbv zeta.
  change (m_is_dirty (obj (log [EvLock; EvUnlock] (sweep_state s))))
    with (m_is_dirty (obj (sweep_state s))).
  destruct (m_is_dirty (obj (sweep_state s))); cbn [negb]; [|done].
  by destruct (write_ok _ _).
Qed.

Lemma dump_state_None (s : State CSubNet) k :
  m_banned (obj s) !! k = None -> m_banned (obj (dump_state s)) !! k = None.
Proof.
  intros Hk. rewrite dump_state_banned.
  destruct (m_is_dirty _); auto using live_entries_None.
Qed.

(** What [DumpBanlist] does when the flag is set once it has swept. *)
Lemma dump_state_write (s : State CSubNet) :
  m_is_dirty (obj (sweep_state s)) = true ->
  let ok := write_ok (env s) (writes (env s)) in
  m_is_dirty (obj (dump_state s)) = negb ok
  /\ writes (env (dump_state s)) = S (writes (env s))
  /\ EvDbWrite (m_banned (obj (dump_state s))) ok
       ∈ events_of DumpBanlist s.
Proof.
  intros Hsd. cbv zeta.
  pose proof (dump_state_trace s) as Htr. revert Htr.
  generalize (events_of DumpBanlist s). intros evs.
  unfold dump_state. cbv zeta.
  change (m_is_dirty (obj (log [EvLock; EvUnlock] (sweep_state s))))
    with (m_is_dirty (obj (sweep_state s))).
  rewrite Hsd. cbn [negb].
  set (s2 := log [EvUnlock] (sweep_state (log [EvLock] _))).
  assert (Hw : writes (env s2) = writes (env s)) by done.
  assert (Hwo : write_ok (env s2) = write_ok (env s)) by done.
  assert (Hd2 : m_is_dirty (obj s2) = true).
  { unfold s2. cbn [log obj]. unfold sweep_state at 1.
    cbn [obj m_is_dirty log]. by rewrite Hsd. }
  assert (Hs2 : exists pre, trace (env s2) = trace (env s) ++ pre).
  { unfold s2, sweep_state, log; cbn. rewrite <- !app_assoc. eauto. }
  destruct Hs2 as [pre Hs2]. clearbody s2. rewrite Hw, Hwo.
  destruct (write_ok (env s) (writes (env s))) eqn:Hok;
    cbn [wrote log with_banned env trace obj m_is_dirty m_banned writes];
    rewrite ?Hw, ?Hwo, ?Hok; intros Htr;
    (split_and!; [done..|]);
    rewrite Hs2, <- !app_assoc in Htr; apply app_inv_head in Htr;
    subst evs; apply elem_of_app; right; by left.
Qed.

Lemma dump_state_dirty (s : State CSubNet) :
  m_is_dirty (obj s) = true ->
  let ok := write_ok (env s) (writes (env s)) in
  m_is_dirty (obj (dump_state s)) = negb ok
  /\ writes (env (dump_state s)) = S (writes (env s))
  /\ EvDbWrite (m_banned (obj (dump_state s))) ok
       ∈ events_of DumpBanlist s.
Proof.
  intros Hd. apply dump_state_write.
  unfold sweep_state; cbn. by rewrite Hd.
Qed.

(** ** Overlap query and sweep *)

(** C4.  [HasBannedAddresses] answers [true] exactly when some entry of the
    banned map is unexpired at the time read (current time strictly below
    its [nBanUntil]) and its subnet is a superset of the queried subnet or
    a subset of it.  The query leaves the registry as it was. *)
Theorem HasBannedAddresses_iff (sub_net : CSubNet) (s : State CSubNet) :
  let current_time := clock (env s) (ticks (env s)) in
  ((HasBannedAddresses sub_net s).1 = true <->
   exists banned_sub_net ban_entry,
     m_banned (obj s) !! banned_sub_net = Some ban_entry
     /\ current_time < nBanUntil ban_entry
     /\ (IsSuperset banned_sub_net sub_net = true
         \/ IsSuperset sub_net banned_sub_net = true))
  /\ obj (HasBannedAddresses sub_net s).2 = obj s.
Proof.
  cbv zeta. rewrite HasBannedAddresses_run. cbn [fst snd]. split; [|done].
  rewrite overlap_loop_true. unfold overlaps. split.
  - intros (k & e & Hin & Ho & Ht). exists k, e.
    apply elem_of_map_to_list in Hin. apply orb_true_iff in Ho. done.
  - intros (k & e & Hin & Ht & Ho). exists k, e.
    split_and!; [by apply elem_of_map_to_list|by apply orb_true_iff|done].
Qed.

(** C5.  A sweep at time [now] removes exactly the entries with
    [now > nBanUntil]: each of them is gone afterwards, every entry with
    [now <= nBanUntil] is still there unchanged, and nothing is added.  A
    removal sets the dirty flag; without one the flag keeps its value.
    Before any sweep, an overlap query at that time already answers
    [false] when every overlapping entry is such an expired one. *)
Theorem SweepBanned_removes_expired (s : State CSubNet) :
  let now := clock (env s) (ticks (env s)) in
  let banned := m_banned (obj s) in
  let s' := (SweepBanned s).2 in
  (forall k e, banned !! k = Some e -> now > nBanUntil e ->
               m_banned (obj s') !! k = None)
  /\ (forall k e, banned !! k = Some e -> now <= nBanUntil e ->
                  m_banned (obj s') !! k = Some e)
  /\ (forall k, banned !! k = None -> m_banned (obj s') !! k = None)
  /\ ((exists k e, banned !! k = Some e /\ now > nBanUntil e) ->
      m_is_dirty (obj s') = true)
  /\ ((forall k e, banned !! k = Some e -> now <= nBanUntil e) ->
      m_is_dirty (obj s') = m_is_dirty (obj s))
  /\ (forall sub_net,
        (forall k e, banned !! k = Some e -> overlaps k sub_net = true ->
                     now > nBanUntil e) ->
        (HasBannedAddresses sub_net s).1 = false).
Proof.
  cbv zeta. rewrite SweepBanned_run. cbn [snd].
  unfold sweep_state at 1 2 3. cbn [obj m_banned].
  split_and!.
  - intros k e Hk Hgt. rewrite live_entries_lookup, Hk.
    by apply gtb_true in Hgt as ->.
  - intros k e Hk Hle. rewrite live_entries_lookup, Hk.
    by apply gtb_false in Hle as ->.
  - intros k Hk. by apply live_entries_None.
  - intros (k & e & Hk & Hgt). unfold sweep_state. cbn [obj m_is_dirty].
    apply orb_true_iff. right. apply any_expired_true. exists k, e.
    split; [by apply elem_of_map_to_list|done].
  - intros Hall. unfold sweep_state. cbn [obj m_is_dirty].
    destruct (any_expired _ _) eqn:Hany; [|by rewrite orb_false_r].
    apply any_expired_true in Hany as (k & e & Hin & Hgt).
    apply elem_of_map_to_list in Hin. specialize (Hall k e Hin). lia.
  - intros sub_net Hall. rewrite HasBannedAddresses_run. cbn [fst].
    apply not_true_is_false. intros (k & e & Hin & Ho & Ht)%overlap_loop_true.
    apply elem_of_map_to_list in Hin. specialize (Hall k e Hin Ho). lia.
Qed.

(** C10.  An entry whose [nBanUntil] equals the current time is kept by
    the sweep (so [GetBanned] still returns it), while no overlap query at
    that time is answered [true] on its account: a positive answer is owed
    to another entry, and a map holding only this entry answers [false]. *)
Theorem boundary_entry_kept_not_banned (k : CSubNet) (e : CBanEntry)
    (s : State CSubNet) :
  let now := clock (env s) (ticks (env s)) in
  m_banned (obj s) !! k = Some e ->
  nBanUntil e = now ->
  m_banned (obj (SweepBanned s).2) !! k = Some e
  /\ (GetBanned s).1 !! k = Some e
  /\ (forall sub_net,
        (HasBannedAddresses sub_net s).1 = true ->
        exists k' e', k' <> k /\ m_banned (obj s) !! k' = Some e'
                      /\ now < nBanUntil e' /\ overlaps k' sub_net = true)
  /\ (forall sub_net,
        (HasBannedAddresses sub_net
           (with_banned {[ k := e ]} (m_is_dirty (obj s)) s)).1 = false).
Proof.
  cbv zeta. intros Hk Hnow.
  assert (Hkeep : live_entries (clock (env s) (ticks (env s)))
                    (m_banned (obj s)) !! k = Some e).
  { rewrite live_entries_lookup, Hk.
    by rewrite (proj2 (gtb_false _ _)) by lia. }
  rewrite SweepBanned_run, GetBanned_run. cbn [fst snd].
  split_and!; [done|done| |].
  - intros sub_net. rewrite HasBannedAddresses_run. cbn [fst].
    intros (k' & e' & Hin & Ho & Ht)%overlap_loop_true.
    apply elem_of_map_to_list in Hin. exists k', e'.
    split_and!; [|done..]. intros ->. rewrite Hk in Hin.
    injection Hin as <-. lia.
  - intros sub_net. rewrite HasBannedAddresses_run. cbn [fst].
    apply not_true_is_false. intros (k' & e' & Hin & Ho & Ht)%overlap_loop_true.
    apply elem_of_map_to_list in Hin. cbn in Hin, Ht.
    apply lookup_singleton_Some in Hin as [<- <-]. lia.
Qed.

(** C7.  [SetBanned banmap] installs [banmap] and sets the dirty flag; a
    following [GetBanned], whatever the clock shows by then, returns
    [banmap] without the entries whose [nBanUntil] lies before the time of
    that call, and with every other entry unchanged. *)
Theorem SetBanned_GetBanned (banmap : banmap_t) (s : State CSubNet)
    (w : World CSubNet) :
  let s1 := (SetBanned banmap s).2 in
  let now := clock w (ticks w) in
  m_is_dirty (obj s1) = true
  /\ m_banned (obj s1) = banmap
  /\ (GetBanned {| obj := obj s1; env := w |}).1
     = filter (fun kv => ¬ now > nBanUntil kv.2) banmap
  /\ (forall k,
        (GetBanned {| obj := obj s1; env := w |}).1 !! k
        = match banmap !! k with
          | Some e => if now >? nBanUntil e then None else Some e
          | None => None
          end).
Proof.
  cbv zeta. rewrite SetBanned_run, GetBanned_run. cbn [fst snd].
  split_and!; [done|done|done|].
  intros k. cbn. apply live_entries_lookup.
Qed.

(** ** [Ban] *)

Lemma int64_add_exact (a b : Z) : int64_range (a + b) -> int64_add a b = a + b.
Proof.
  unfold int64_range, int64_min, int64_max, int64_add, int64_wrap.
  intros Hr. rewrite Z.mod_small; lia.
Qed.

Lemma consolidated_lookup_new (sub_net : CSubNet) new_ban_entry
    (banned : banmap_t) :
  consolidated sub_net new_ban_entry banned !! sub_net = Some new_ban_entry.
Proof. apply lookup_insert_eq. Qed.

Lemma consolidated_lookup_absorbed (sub_net k : CSubNet) new_ban_entry e
    (banned : banmap_t) :
  k <> sub_net -> banned !! k = Some e ->
  absorbs sub_net new_ban_entry (k, e) = true ->
  consolidated sub_net new_ban_entry banned !! k = None.
Proof.
  intros Hne Hk Ha. unfold consolidated. rewrite lookup_insert_ne by done.
  apply map_lookup_filter_None. right. intros e' He'.
  rewrite Hk in He'. injection He' as <-. congruence.
Qed.

(** C1.  When [A] is a superset of [B] and [A] is banned until a time not
    earlier than the one computed for the new ban of [B], [Ban B] returns
    [false] and leaves the whole registry (banned map, dirty flag) exactly
    as it was: nothing collected for deletion by the scan is erased, no
    write is attempted, and the only events are taking and releasing the
    lock. *)
Theorem Ban_covered_rejected (A B : CSubNet) (e_A : CBanEntry)
    (ban_time_offset : Z) (since_unix_epoch : bool) (s : State CSubNet) :
  IsSuperset A B = true ->
  m_banned (obj s) !! A = Some e_A ->
  nBanUntil e_A >= nBanUntil (Ban_entry ban_time_offset since_unix_epoch s).1 ->
  (Ban B ban_time_offset since_unix_epoch s).1 = false
  /\ obj (Ban B ban_time_offset since_unix_epoch s).2 = obj s
  /\ writes (env (Ban B ban_time_offset since_unix_epoch s).2) = writes (env s)
  /\ events_of (Ban B ban_time_offset since_unix_epoch) s = [EvLock; EvUnlock].
Proof.
  intros Hsup HA Hge. rewrite Ban_entry_run in Hge. cbn [fst] in Hge.
  assert (Hrun : Ban B ban_time_offset since_unix_epoch s
                 = (false, log [EvLock; EvUnlock]
                             (after_candidate ban_time_offset
                                since_unix_epoch s))).
  { rewrite Ban_run. cbv zeta.
    rewrite (proj2 (rejected_true B _ (m_banned (obj s)))); [done|].
    exists A, e_A. split; [done|]. unfold rejects. cbn [fst snd].
    rewrite Hsup. apply Z.leb_le. lia. }
  destruct (after_candidate_env ban_time_offset since_unix_epoch s)
    as (Htr & Hw & _ & _).
  split_and!.
  - by rewrite Hrun.
  - rewrite Hrun. cbn [snd log obj]. apply after_candidate_obj.
  - by rewrite Hrun.
  - apply events_of_intro. rewrite Hrun. cbn [snd log env trace].
    by rewrite Htr.
Qed.

(** The candidate entry of [Ban] and its place in the map when the lock is
    released. *)
Lemma Ban_entry_expiry (sub_net : CSubNet) (ban_time_offset : Z)
    (since_unix_epoch : bool) (s : State CSubNet) :
  let now := clock (env s) (S (ticks (env s))) in
  let default_ban_time := m_default_ban_time (obj s) in
  let new_ban_entry := (Ban_entry ban_time_offset since_unix_epoch s).1 in
  let s0 := (Ban_entry ban_time_offset since_unix_epoch s).2 in
  let base := if since_unix_epoch then 0 else now in
  (ban_time_offset <= 0 ->
     nBanUntil new_ban_entry = int64_add now default_ban_time)
  /\ (0 < ban_time_offset ->
        nBanUntil new_ban_entry = int64_add base ban_time_offset)
  /\ (ban_time_offset <= 0 -> int64_range (now + default_ban_time) ->
        nBanUntil new_ban_entry = now + default_ban_time)
  /\ (0 < ban_time_offset -> int64_range (base + ban_time_offset) ->
        nBanUntil new_ban_entry = base + ban_time_offset)
  /\ (Ban sub_net ban_time_offset since_unix_epoch s).1
     = (Ban_locked sub_net new_ban_entry s0).1
  /\ ((Ban sub_net ban_time_offset since_unix_epoch s).1 = true ->
        m_banned (obj (Ban_locked sub_net new_ban_entry s0).2) !! sub_net
        = Some new_ban_entry).
Proof.
  cbv zeta. rewrite Ban_entry_run. cbn [fst snd].
  assert (Hneg : ban_time_offset <= 0 ->
            nBanUntil (candidate_entry ban_time_offset since_unix_epoch s)
            = int64_add (clock (env s) (S (ticks (env s))))
                        (m_default_ban_time (obj s))).
  { intros Hle. unfold candidate_entry, relative_to_now. cbn [nBanUntil].
    by rewrite (proj2 (Z.leb_le _ _) Hle). }
  assert (Hpos : 0 < ban_time_offset ->
            nBanUntil (candidate_entry ban_time_offset since_unix_epoch s)
            = int64_add (if since_unix_epoch then 0
                         else clock (env s) (S (ticks (env s))))
                        ban_time_offset).
  { intros Hlt. unfold candidate_entry, relative_to_now. cbn [nBanUntil].
    rewrite (proj2 (Z.leb_gt _ _) Hlt). by destruct since_unix_epoch. }
  assert (Hret : (Ban sub_net ban_time_offset since_unix_epoch s).1
                 = (Ban_locked sub_net
                      (candidate_entry ban_time_offset since_unix_epoch s)
                      (after_candidate ban_time_offset since_unix_epoch s)).1).
  { rewrite Ban_run, Ban_locked_run, after_candidate_obj. cbv zeta.
    by destruct (rejected _ _ _). }
  split_and!; [done|done| | |done|].
  - intros Hle Hr. rewrite Hneg by done. by apply int64_add_exact.
  - intros Hlt Hr. rewrite Hpos by done. by apply int64_add_exact.
  - rewrite Hret, Ban_locked_run, after_candidate_obj.
    destruct (rejected _ _ _); cbn [fst snd]; [done|]. intros _.
    apply consolidated_lookup_new.
Qed.

(** C2, as the code has it.  Let [A] be a superset of [B], [B] banned, and
    the new ban of [A] expire strictly later than [B]'s.  If moreover no
    banned superset of [A] lasts at least as long as the new ban (the
    rejection rule of the scan), then [Ban A] returns [true]; when the lock
    is released the new entry is stored under the key [A], the entry of
    [B] (if [B] is another key) is gone and the dirty flag is set.  After
    the flush that ends the call [B] is still absent, [A] is present
    unless the clock has already passed its expiry, and the dirty flag is
    set exactly when the save failed. *)
Theorem Ban_broader_longer_absorbs (A B : CSubNet) (e_B : CBanEntry)
    (ban_time_offset : Z) (since_unix_epoch : bool) (s : State CSubNet) :
  let new_ban_entry := (Ban_entry ban_time_offset since_unix_epoch s).1 in
  let s0 := (Ban_entry ban_time_offset since_unix_epoch s).2 in
  let committed := (Ban_locked A new_ban_entry s0).2 in
  let final := (Ban A ban_time_offset since_unix_epoch s).2 in
  IsSuperset A B = true ->
  m_banned (obj s) !! B = Some e_B ->
  nBanUntil new_ban_entry > nBanUntil e_B ->
  (forall C e_C, m_banned (obj s) !! C = Some e_C ->
                 IsSuperset C A = true ->
                 nBanUntil e_C < nBanUntil new_ban_entry) ->
  (Ban A ban_time_offset since_unix_epoch s).1 = true
  /\ m_banned (obj committed) !! A = Some new_ban_entry
  /\ (B <> A -> m_banned (obj committed) !! B = None)
  /\ m_is_dirty (obj committed) = true
  /\ (B <> A -> m_banned (obj final) !! B = None)
  /\ (clock (env s0) (ticks (env s0)) <= nBanUntil new_ban_entry ->
      clock (env s0) (S (ticks (env s0))) <= nBanUntil new_ban_entry ->
      m_banned (obj final) !! A = Some new_ban_entry)
  /\ m_is_dirty (obj final) = negb (write_ok (env s) (writes (env s))).
Proof.
  cbv zeta. rewrite Ban_entry_run. cbn [fst snd].
  set (new_ban_entry := candidate_entry ban_time_offset since_unix_epoch s).
  set (s0 := after_candidate ban_time_offset since_unix_epoch s).
  intros Hsup HB Hlater Hfree.
  assert (Hnr : rejected A new_ban_entry (m_banned (obj s)) = false).
  { apply not_true_is_false. intros (C & e_C & HC & Hr)%rejected_true.
    unfold rejects in Hr. cbn [fst snd] in Hr.
    apply andb_true_iff in Hr as [HCA Hle]. apply Z.leb_le in Hle.
    specialize (Hfree C e_C HC HCA). lia. }
  assert (Habs : absorbs A new_ban_entry (B, e_B) = true).
  { unfold absorbs. cbn [fst snd]. rewrite Hsup. by apply gtb_true. }
  assert (Hobj : obj s0 = obj s) by apply after_candidate_obj.
  rewrite Ban_run, Ban_locked_run. cbv zeta. fold new_ban_entry s0.
  rewrite Hobj, Hnr. cbn [fst snd].
  set (cons := consolidated A new_ban_entry (m_banned (obj s))).
  set (X := log ([EvLock; EvUnlock] ++ notification s)
              (with_banned cons true s0)).
  assert (HXd : m_is_dirty (obj X) = true) by done.
  assert (HXb : m_banned (obj (dump_state X))
                = live_entries (clock (env s0) (S (ticks (env s0))))
                    (live_entries (clock (env s0) (ticks (env s0))) cons)).
  { rewrite dump_state_banned.
    replace (m_is_dirty (obj (sweep_state X))) with true; done. }
  split_and!.
  - done.
  - apply consolidated_lookup_new.
  - intros Hne. by apply (consolidated_lookup_absorbed A B new_ban_entry e_B).
  - done.
  - intros Hne. rewrite HXb. do 2 apply live_entries_None.
    by apply (consolidated_lookup_absorbed A B new_ban_entry e_B).
  - intros H1 H2. rewrite HXb, !live_entries_lookup.
    unfold cons. rewrite consolidated_lookup_new.
    rewrite (proj2 (gtb_false _ _)) by done.
    by rewrite (proj2 (gtb_false _ _)) by done.
  - destruct (dump_state_dirty X HXd) as (-> & _ & _).
    destruct (after_candidate_env ban_time_offset since_unix_epoch s)
      as (_ & Hw & Hwo & _).
    unfold X. cbn [log with_banned env write_ok writes].
    fold s0 in Hw, Hwo. by rewrite Hw, Hwo.
Qed.

(** ** Flush *)


(** ** Mutations, their notification and their flush *)

Lemma dump_state_const (s : State CSubNet) :
  m_client_interface (obj (dump_state s)) = m_client_interface (obj s)
  /\ write_ok (env (dump_state s)) = write_ok (env s).
Proof.
  unfold dump_state. cbv zeta.
  destruct (negb _); [done|]. by destruct (write_ok _ _).
Qed.

Lemma ClearBanned_events (s : State CSubNet) :
  events_of ClearBanned s
  = [EvLock; EvUnlock]
    ++ events_of DumpBanlist (ClearBanned_locked s).2
    ++ notification s.
Proof.
  rewrite ClearBanned_locked_run. cbn [snd].
  apply events_of_intro. rewrite ClearBanned_run. cbv zeta.
  cbn [snd log env trace]. rewrite dump_state_trace.
  unfold notification. rewrite (proj1 (dump_state_const _)).
  cbn [log with_banned obj env trace m_client_interface].
  by rewrite <- !app_assoc.
Qed.

Lemma Ban_flush_state (sub_net : CSubNet) ban_time_offset since_unix_epoch
    (s : State CSubNet) :
  rejected sub_net (candidate_entry ban_time_offset since_unix_epoch s)
           (m_banned (obj s)) = false ->
  (BannedListChanged
     (Ban_locked sub_net (Ban_entry ban_time_offset since_unix_epoch s).1
        (Ban_entry ban_time_offset since_unix_epoch s).2).2).2
  = log ([EvLock; EvUnlock] ++ notification s)
      (with_banned
         (consolidated sub_net
            (candidate_entry ban_time_offset since_unix_epoch s)
            (m_banned (obj s)))
         true (after_candidate ban_time_offset since_unix_epoch s)).
Proof.
  intros Hnr. rewrite Ban_entry_run. cbn [fst snd].
  rewrite Ban_locked_run, after_candidate_obj, Hnr. cbn [snd].
  rewrite BannedListChanged_run. cbn [snd]. rewrite log_log. f_equal.
  unfold notification. cbn [log with_banned obj m_client_interface].
  by rewrite after_candidate_obj.
Qed.

Lemma Ban_events (sub_net : CSubNet) ban_time_offset since_unix_epoch
    (s : State CSubNet) :
  events_of (Ban sub_net ban_time_offset since_unix_epoch) s
  = [EvLock; EvUnlock]
    ++ (if (Ban sub_net ban_time_offset since_unix_epoch s).1
        then notification s
             ++ events_of DumpBanlist
                  (BannedListChanged
                     (Ban_locked sub_net
                        (Ban_entry ban_time_offset since_unix_epoch s).1
                        (Ban_entry ban_time_offset since_unix_epoch s).2).2).2
        else []).
Proof.
  destruct (after_candidate_env ban_time_offset since_unix_epoch s)
    as (Htr & _).
  destruct (rejected sub_net
              (candidate_entry ban_time_offset since_unix_epoch s)
              (m_banned (obj s))) eqn:Hr.
  - apply events_of_intro. rewrite Ban_run. cbv zeta. rewrite Hr.
    cbn [fst snd log env trace]. by rewrite Htr.
  - rewrite Ban_flush_state by done.
    apply events_of_intro. rewrite Ban_run. cbv zeta. rewrite Hr.
    cbn [fst snd]. rewrite dump_state_trace.
    cbn [log with_banned env trace]. by rewrite Htr, <- !app_assoc.
Qed.

Lemma Unban_events (sub_net : CSubNet) (s : State CSubNet) :
  events_of (Unban sub_net) s
  = [EvLock; EvUnlock]
    ++ (if (Unban sub_net s).1
        then notification s
             ++ events_of DumpBanlist
                  (BannedListChanged (Unban_locked sub_net s).2).2
        else []).
Proof.
  rewrite Unban_locked_run.
  apply events_of_intro. rewrite Unban_run.
  destruct (m_banned (obj s) !! sub_net); cbn [fst snd]; [|done].
  rewrite BannedListChanged_run. cbn [snd]. rewrite log_log.
  change (notification (log _ ?x)) with (notification s).
  rewrite dump_state_trace. cbn [log with_banned env trace].
  by rewrite <- !app_assoc.
Qed.

Lemma ClearBanned_effect (s : State CSubNet) :
  let s1 := (ClearBanned s).2 in
  m_banned (obj s1) = ∅
  /\ m_is_dirty (obj s1) = negb (write_ok (env s) (writes (env s)))
  /\ writes (env s1) = S (writes (env s))
  /\ write_ok (env s1) = write_ok (env s)
  /\ m_client_interface (obj s1) = m_client_interface (obj s)
  /\ EvDbWrite ∅ (write_ok (env s) (writes (env s)))
       ∈ events_of ClearBanned s.
Proof.
  cbv zeta. rewrite ClearBanned_events, ClearBanned_run. cbv zeta.
  rewrite ClearBanned_locked_run.
  cbn [snd log obj env writes write_ok].
  set (X := log [EvLock; EvUnlock] (with_banned ∅ true s)).
  assert (HXd : m_is_dirty (obj X) = true) by done.
  destruct (dump_state_dirty X HXd) as (Hd & Hw & Hev).
  destruct (dump_state_const X) as (Hci & Hwo).
  assert (Hempty : m_banned (obj (dump_state X)) = ∅).
  { apply map_empty. intros k. by apply dump_state_None. }
  rewrite Hempty in Hev.
  split_and!; [done..|].
  apply elem_of_app. right. apply elem_of_app. by left.
Qed.

(** Map, flag and write counter after each of two successive
    [ClearBanned]. *)
Lemma ClearBanned_twice_flag (s : State CSubNet) :
  let s1 := (ClearBanned s).2 in
  let s2 := (ClearBanned s1).2 in
  let ok1 := write_ok (env s) (writes (env s)) in
  let ok2 := write_ok (env s) (S (writes (env s))) in
  m_banned (obj s1) = ∅
  /\ m_banned (obj s2) = ∅
  /\ m_is_dirty (obj (ClearBanned_locked s).2) = true
  /\ m_is_dirty (obj (ClearBanned_locked s1).2) = true
  /\ m_is_dirty (obj s1) = negb ok1
  /\ m_is_dirty (obj s2) = negb ok2
  /\ writes (env s1) = S (writes (env s))
  /\ writes (env s2) = S (writes (env s1))
  /\ EvDbWrite ∅ ok2 ∈ events_of ClearBanned s1
  /\ (m_client_interface (obj s) = true ->
      EvBannedListChanged ∈ events_of ClearBanned s1).
Proof.
  cbv zeta.
  destruct (ClearBanned_effect s) as (Hb1 & Hd1 & Hw1 & Hwo1 & Hci1 & _).
  destruct (ClearBanned_effect (ClearBanned s).2)
    as (Hb2 & Hd2 & Hw2 & _ & _ & Hev2).
  cbv zeta in *. rewrite Hwo1, Hw1 in Hd2, Hev2.
  split_and!; [done|done|by rewrite ClearBanned_locked_run..|done|done|done|done|done|].
  intros Hci. rewrite ClearBanned_events. unfold notification.
  rewrite Hci1, Hci. rewrite !elem_of_app. right. right. by left.
Qed.

(** C9, as the code has it.  [Ban] and [Unban] emit, in this order: taking
    and releasing the lock, then (only when they return [true]) the
    notification, if a UI is attached, followed by the flush.  A call that
    returns [false] leaves the registry untouched and notifies nobody; a
    call that returns [true] has changed the banned map at the key ([Unban]
    removed it; [Ban] stored an entry that was not there, given that a
    subnet is a superset of itself).  [ClearBanned] releases the lock,
    flushes, and only then notifies, whenever a UI is attached, also when
    the map was empty before. *)
Theorem mutation_notifications (s : State CSubNet) :
  (forall sub_net ban_time_offset since_unix_epoch,
     let new_ban_entry :=
       (Ban_entry ban_time_offset since_unix_epoch s).1 in
     let committed :=
       (Ban_locked sub_net new_ban_entry
          (Ban_entry ban_time_offset since_unix_epoch s).2).2 in
     let r := (Ban sub_net ban_time_offset since_unix_epoch s).1 in
     events_of (Ban sub_net ban_time_offset since_unix_epoch) s
     = [EvLock; EvUnlock]
       ++ (if r
           then notification s
                ++ events_of DumpBanlist (BannedListChanged committed).2
           else [])
     /\ (r = false ->
         obj (Ban sub_net ban_time_offset since_unix_epoch s).2 = obj s)
     /\ (r = true -> IsSuperset sub_net sub_net = true ->
         m_banned (obj committed) !! sub_net = Some new_ban_entry
         /\ m_banned (obj s) !! sub_net <> Some new_ban_entry))
  /\ (forall sub_net,
        let r := (Unban sub_net s).1 in
        events_of (Unban sub_net) s
        = [EvLock; EvUnlock]
          ++ (if r
              then notification s
                   ++ events_of DumpBanlist
                        (BannedListChanged (Unban_locked sub_net s).2).2
              else [])
        /\ (r = false -> obj (Unban sub_net s).2 = obj s)
        /\ (r = true ->
            is_Some (m_banned (obj s) !! sub_net)
            /\ m_banned (obj (Unban sub_net s).2) !! sub_net = None))
  /\ events_of ClearBanned s
     = [EvLock; EvUnlock]
       ++ events_of DumpBanlist (ClearBanned_locked s).2
       ++ notification s
  /\ (m_banned (obj s) = ∅ -> m_client_interface (obj s) = true ->
      m_banned (obj (ClearBanned s).2) = m_banned (obj s)
      /\ last (events_of ClearBanned s) = Some EvBannedListChanged).
Proof.
  split_and!.
  - intros sub_net off se. cbv zeta. split_and!.
    + apply Ban_events.
    + rewrite Ban_run. cbv zeta.
      destruct (rejected _ _ _); cbn [fst snd log obj]; [|done].
      intros _. apply after_candidate_obj.
    + rewrite Ban_run, Ban_entry_run. cbv zeta. cbn [fst snd].
      rewrite Ban_locked_run, after_candidate_obj.
      destruct (rejected _ _ _) eqn:Hr; cbn [fst snd]; [done|].
      intros _ Hrefl. split; [apply consolidated_lookup_new|].
      intros Hold.
      assert (rejected sub_net (candidate_entry off se s) (m_banned (obj s))
              = true); [|congruence].
      apply rejected_true. eexists _, _. split; [exact Hold|].
      unfold rejects. cbn [fst snd]. rewrite Hrefl. apply Z.leb_le. lia.
  - intros sub_net. cbv zeta. split_and!.
    + apply Unban_events.
    + rewrite Unban_run. by destruct (_ !! _).
    + rewrite Unban_run. destruct (_ !! _) eqn:Hk; cbn [fst snd]; [|done].
      intros _. split; [done|]. apply dump_state_None.
      apply lookup_delete_eq.
  - apply ClearBanned_events.
  - intros Hempty Hci.
    destruct (ClearBanned_effect s) as (Hb & _).
    cbv zeta in Hb. split; [by rewrite Hb, Hempty|].
    rewrite ClearBanned_events. unfold notification. rewrite Hci.
    by rewrite !app_assoc, last_snoc.
Qed.

(** * Further properties of the code *)

(** ** Events of a sweep and of a flush *)

Lemma sweep_state_banned (s : State CSubNet) :
  m_banned (obj (sweep_state s))
  = live_entries (clock (env s) (ticks (env s))) (m_banned (obj s)).
Proof. reflexivity. Qed.

Lemma sweep_state_dirty (s : State CSubNet) :
  m_is_dirty (obj (sweep_state s))
  = m_is_dirty (obj s)
    || any_expired (clock (env s) (ticks (env s)))
         (map_to_list (m_banned (obj s))).
Proof. reflexivity. Qed.

Lemma sweep_state_writes (s : State CSubNet) :
  writes (env (sweep_state s)) = writes (env s).
Proof. reflexivity. Qed.

Lemma sweep_state_events (s : State CSubNet) :
  trace (env (sweep_state s)) = trace (env s) ++ sweep_events s.
Proof. reflexivity. Qed.

Lemma SweepBanned_events (s : State CSubNet) :
  events_of SweepBanned s = sweep_events s.
Proof. apply events_of_intro. by rewrite SweepBanned_run. Qed.

Lemma DumpBanlist_events (s : State CSubNet) :
  events_of DumpBanlist s = dump_events s.
Proof.
  apply events_of_intro. rewrite DumpBanlist_run. cbn [snd].
  unfold dump_state, dump_events. cbv zeta.
  set (s1 := log [EvLock; EvUnlock] (sweep_state s)).
  assert (H1 : trace (env s1)
               = trace (env s) ++ sweep_events s ++ [EvLock; EvUnlock]).
  { unfold s1. cbn [log env trace]. unfold sweep_state at 1.
    cbn [env trace]. fold (sweep_events s). by rewrite <- !app_assoc. }
  destruct (m_is_dirty (obj s1)); cbn [negb].
  - set (s2 := log [EvUnlock] (sweep_state (log [EvLock] s1))).
    assert (H2 : trace (env s2)
                 = trace (env s1) ++ [EvLock] ++ sweep_events s1 ++ [EvUnlock]).
    { unfold s2. cbn [log env trace]. unfold sweep_state at 1.
      cbn [log env trace obj clock ticks]. fold (sweep_events s1).
      by rewrite <- !app_assoc. }
    assert (Hw : writes (env s2) = writes (env s)) by done.
    assert (Hwo : write_ok (env s2) = write_ok (env s)) by done.
    change (m_banned (obj s2)) with (m_banned (obj (sweep_state s1))).
    clearbody s2. rewrite Hw, Hwo.
    destruct (write_ok (env s) (writes (env s))) eqn:Hok;
      cbn [wrote log with_banned env trace]; rewrite H2, H1, Hw, Hwo, Hok;
      by rewrite <- ?app_assoc, ?app_nil_r.
  - rewrite H1. by rewrite <- ?app_assoc, ?app_nil_r.
Qed.

Lemma sweep_events_no_write (s : State CSubNet) banmap r :
  EvDbWrite banmap r ∉ sweep_events s.
Proof.
  unfold sweep_events. rewrite elem_of_app, !elem_of_cons.
  destruct (_ && _); rewrite ?elem_of_cons, ?elem_of_nil;
    intuition discriminate.
Qed.

(** ** Construction *)

Lemma BanMan_load_some (banmap : banmap_t) (s : State CSubNet) :
  BanMan_load (Some banmap) s
  = (tt, sweep_state
           (log [EvLock; EvUnlock; EvLock; EvUnlock]
              (with_banned banmap false s))).
Proof.
  unfold BanMan_load, bind.
  change (set_m_is_dirty false s)
    with (tt, with_banned (m_banned (obj s)) false s).
  cbv beta iota. rewrite SetBanned_run, SetBannedSetDirty_run. cbv beta iota.
  rewrite SweepBanned_run. do 2 f_equal.
  unfold log, with_banned; cbn. by rewrite <- app_assoc.
Qed.

Lemma BanMan_load_none (s : State CSubNet) :
  BanMan_load None s
  = (tt, dump_state
           (log [EvLock; EvUnlock] (with_banned (m_banned (obj s)) true s))).
Proof.
  unfold BanMan_load, bind.
  change (set_m_is_dirty false s)
    with (tt, with_banned (m_banned (obj s)) false s).
  cbv beta iota. rewrite SetBannedSetDirty_run, DumpBanlist_run. done.
Qed.

(** X1.  Construction from a readable ban file: the registry holds the
    entries read, without those already expired at the time of the sweep;
    it is dirty exactly when the sweep removed one; the store is not
    written; the UI is notified exactly when one is attached and an entry
    was removed. *)
Theorem BanMan_new_loaded (client_interface : bool) (default_ban_time : Z)
    (banmap : banmap_t) (w : World CSubNet) :
  let now := clock w (ticks w) in
  let s := BanMan_built client_interface default_ban_time (Some banmap) w in
  let removed := exists k e, banmap !! k = Some e /\ now > nBanUntil e in
  m_banned (obj s) = filter (fun kv => ¬ now > nBanUntil kv.2) banmap
  /\ (m_is_dirty (obj s) = true <-> removed)
  /\ writes (env s) = writes w
  /\ (exists evs,
        trace (env s) = trace w ++ evs
        /\ (forall b r, EvDbWrite b r ∉ evs)
        /\ (EvBannedListChanged ∈ evs <-> client_interface = true /\ removed)).
Proof.
  cbv zeta. unfold BanMan_built. rewrite BanMan_load_some.
  cbn [snd].
  set (X := log [EvLock; EvUnlock; EvLock; EvUnlock] (with_banned banmap false _)).
  assert (Hany : any_expired (clock w (ticks w)) (map_to_list banmap) = true
                 <-> exists k e, banmap !! k = Some e
                                 /\ clock w (ticks w) > nBanUntil e).
  { rewrite any_expired_true. split; intros (k & e & Hk & Hgt); exists k, e;
      (split; [by apply elem_of_map_to_list|done]). }
  rewrite sweep_state_banned, sweep_state_dirty, sweep_state_writes.
  change (m_banned (obj X)) with banmap.
  change (m_is_dirty (obj X)) with false.
  change (clock (env X)) with (clock w).
  change (ticks (env X)) with (ticks w).
  change (writes (env X)) with (writes w).
  split_and!.
  - reflexivity.
  - cbn [orb]. by rewrite <- Hany.
  - reflexivity.
  - exists ([EvLock; EvUnlock; EvLock; EvUnlock] ++ sweep_events X).
    split_and!.
    + rewrite sweep_state_events. unfold X at 1. cbn [log env trace].
      by rewrite <- app_assoc.
    + intros b r [Hin|Hin]%elem_of_app.
      * rewrite !elem_of_cons, elem_of_nil in Hin. intuition discriminate.
      * by apply sweep_events_no_write in Hin.
    + rewrite <- Hany. split.
      * intros [Hin|Hin]%elem_of_app.
        { rewrite !elem_of_cons, elem_of_nil in Hin. intuition discriminate. }
        revert Hin. unfold sweep_events.
        change (m_banned (obj X)) with banmap.
        change (clock (env X)) with (clock w).
        change (ticks (env X)) with (ticks w).
        change (m_client_interface (obj X)) with client_interface.
        rewrite elem_of_app. intros [Hin|Hin].
        { rewrite !elem_of_cons, elem_of_nil in Hin. intuition discriminate. }
        destruct (any_expired _ _); [|by apply elem_of_nil in Hin].
        by destruct client_interface; [|apply elem_of_nil in Hin].
      * intros [-> Hex]. apply elem_of_app. right. unfold sweep_events.
        change (m_banned (obj X)) with banmap.
        change (clock (env X)) with (clock w).
        change (ticks (env X)) with (ticks w).
        change (m_client_interface (obj X)) with true.
        rewrite Hex. cbn [andb]. apply elem_of_app. right. by left.
Qed.

Lemma live_entries_empty now : live_entries now (∅ : banmap_t) = ∅.
Proof. apply map_filter_empty. Qed.

Lemma live_entries_id now (banned : banmap_t) :
  (forall k e, banned !! k = Some e -> now <= nBanUntil e) ->
  live_entries now banned = banned.
Proof.
  intros Hall. apply map_eq. intros k. rewrite live_entries_lookup.
  destruct (banned !! k) as [e|] eqn:Hk; [|done].
  by rewrite (proj2 (gtb_false _ _)) by eauto.
Qed.

Lemma live_entries_Some now (banned : banmap_t) k e :
  live_entries now banned !! k = Some e <->
  banned !! k = Some e /\ now <= nBanUntil e.
Proof.
  rewrite live_entries_lookup.
  destruct (banned !! k) as [e'|]; [|split; [done|by intros [? _]]].
  destruct (now >? nBanUntil e') eqn:Hgt.
  - apply gtb_true in Hgt. split; [done|]. intros [[= ->] ?]. lia.
  - apply gtb_false in Hgt. split; [intros [= ->]; done|]. by intros [? _].
Qed.

Lemma any_expired_false now (banned : banmap_t) :
  any_expired now (map_to_list banned) = false <->
  forall k e, banned !! k = Some e -> now <= nBanUntil e.
Proof.
  split.
  - intros Hany k e Hk. destruct (decide (now <= nBanUntil e)); [done|].
    assert (any_expired now (map_to_list banned) = true); [|congruence].
    apply any_expired_true. exists k, e.
    split; [by apply elem_of_map_to_list|lia].
  - intros Hall. apply not_true_is_false.
    intros (k & e & Hin & Hgt)%any_expired_true.
    apply elem_of_map_to_list in Hin. specialize (Hall k e Hin). lia.
Qed.

Lemma dump_events_write (s : State CSubNet) banmap r :
  EvDbWrite banmap r ∈ dump_events s ->
  m_is_dirty (obj (sweep_state s)) = true
  /\ banmap = live_entries (clock (env s) (S (ticks (env s))))
                (live_entries (clock (env s) (ticks (env s)))
                   (m_banned (obj s)))
  /\ r = write_ok (env s) (writes (env s)).
Proof.
  unfold dump_events. cbv zeta.
  change (m_is_dirty (obj (log [EvLock; EvUnlock] (sweep_state s))))
    with (m_is_dirty (obj (sweep_state s))).
  rewrite !elem_of_app. intros [Hin|[Hin|Hin]].
  - by apply sweep_events_no_write in Hin.
  - rewrite !elem_of_cons, elem_of_nil in Hin. intuition discriminate.
  - destruct (m_is_dirty (obj (sweep_state s))); [|by apply elem_of_nil in Hin].
    rewrite !elem_of_app in Hin.
    destruct Hin as [Hin|[Hin|[Hin|[Hin|Hin]]]].
    + rewrite elem_of_cons, elem_of_nil in Hin. intuition discriminate.
    + by apply sweep_events_no_write in Hin.
    + rewrite elem_of_cons, elem_of_nil in Hin. intuition discriminate.
    + rewrite elem_of_cons, elem_of_nil in Hin.
      destruct Hin as [Hin|Hin]; [|done]. by inversion Hin.
    + destruct (write_ok _ _);
        rewrite ?elem_of_cons, ?elem_of_nil in Hin; intuition discriminate.
Qed.

Lemma sweep_events_changed (s : State CSubNet) :
  EvBannedListChanged ∈ sweep_events s ->
  m_client_interface (obj s) = true
  /\ exists k e, m_banned (obj s) !! k = Some e
                 /\ clock (env s) (ticks (env s)) > nBanUntil e.
Proof.
  unfold sweep_events. rewrite elem_of_app. intros [Hin|Hin].
  - rewrite !elem_of_cons, elem_of_nil in Hin. intuition discriminate.
  - destruct (any_expired _ _) eqn:Hany; [|by apply elem_of_nil in Hin].
    destruct (m_client_interface (obj s)); [|by apply elem_of_nil in Hin].
    split; [done|].
    apply any_expired_true in Hany as (k & e & Hk & Hgt).
    exists k, e. split; [by apply elem_of_map_to_list|done].
Qed.

(** A flush tells the UI that the list changed only when one of its two
    sweeps removed an entry. *)
Lemma dump_events_changed (s : State CSubNet) :
  EvBannedListChanged ∈ dump_events s ->
  m_client_interface (obj s) = true
  /\ exists k e, m_banned (obj s) !! k = Some e
                 /\ (clock (env s) (ticks (env s)) > nBanUntil e
                     \/ clock (env s) (S (ticks (env s))) > nBanUntil e).
Proof.
  unfold dump_events. cbv zeta. rewrite !elem_of_app.
  intros [Hin|[Hin|Hin]].
  - apply sweep_events_changed in Hin as (Hci & k & e & Hk & Hgt).
    split; [done|]. exists k, e. auto.
  - rewrite !elem_of_cons, elem_of_nil in Hin. intuition discriminate.
  - destruct (m_is_dirty _); [|by apply elem_of_nil in Hin].
    rewrite !elem_of_app in Hin.
    destruct Hin as [Hin|[Hin|[Hin|[Hin|Hin]]]].
    + rewrite elem_of_cons, elem_of_nil in Hin. intuition discriminate.
    + apply sweep_events_changed in Hin as (Hci & k & e & Hk & Hgt).
      split; [done|]. exists k, e.
      cbn [log sweep_state obj env m_banned clock ticks] in Hk, Hgt.
      apply live_entries_Some in Hk as [Hk _]. auto.
    + rewrite elem_of_cons, elem_of_nil in Hin. intuition discriminate.
    + rewrite elem_of_cons, elem_of_nil in Hin. intuition discriminate.
    + destruct (write_ok _ _);
        rewrite ?elem_of_cons, ?elem_of_nil in Hin; intuition discriminate.
Qed.

(** X2.  Construction from a missing or invalid ban file: the registry is
    empty; the store is written exactly once, with the empty map; the
    registry is dirty afterwards exactly when that write failed; the UI is
    not told that the list changed. *)
Theorem BanMan_new_unreadable (client_interface : bool) (default_ban_time : Z)
    (w : World CSubNet) :
  let s := BanMan_built client_interface default_ban_time None w in
  let ok := write_ok w (writes w) in
  m_banned (obj s) = ∅
  /\ m_is_dirty (obj s) = negb ok
  /\ writes (env s) = S (writes w)
  /\ (exists evs,
        trace (env s) = trace w ++ evs
        /\ (forall b r, EvDbWrite b r ∈ evs <-> b = ∅ /\ r = ok)
        /\ EvBannedListChanged ∉ evs).
Proof.
  cbv zeta. unfold BanMan_built. rewrite BanMan_load_none.
  cbn [snd BanMan_members obj m_banned].
  set (X := log [EvLock; EvUnlock] (with_banned ∅ true _)).
  assert (HXd : m_is_dirty (obj X) = true) by reflexivity.
  assert (HXb : m_banned (obj X) = ∅) by reflexivity.
  assert (HXw : writes (env X) = writes w) by reflexivity.
  assert (HXo : write_ok (env X) = write_ok w) by reflexivity.
  assert (HXt : trace (env X) = trace w ++ [EvLock; EvUnlock]) by reflexivity.
  clearbody X.
  destruct (dump_state_dirty X HXd) as (Hd & Hw & Hev).
  rewrite HXw, HXo in Hd. rewrite HXw in Hw.
  assert (Hempty : m_banned (obj (dump_state X)) = ∅).
  { apply map_empty. intros k. apply dump_state_None. by rewrite HXb. }
  split_and!; [exact Hempty|exact Hd|exact Hw|].
  exists ([EvLock; EvUnlock] ++ dump_events X). split_and!.
  - by rewrite dump_state_trace, DumpBanlist_events, HXt, <- app_assoc.
  - intros b r. split.
    + intros [Hin|Hin]%elem_of_app.
      * rewrite !elem_of_cons, elem_of_nil in Hin. intuition discriminate.
      * apply dump_events_write in Hin as (_ & -> & ->).
        rewrite HXb, HXw, HXo. by rewrite !live_entries_empty.
    + intros [-> ->]. apply elem_of_app. right.
      rewrite <- DumpBanlist_events, <- Hempty. by rewrite <- HXw, <- HXo.
  - intros [Hin|Hin]%elem_of_app.
    + rewrite !elem_of_cons, elem_of_nil in Hin. intuition discriminate.
    + destruct (dump_events_changed X Hin) as (_ & k & e & Hk & _).
      rewrite HXb, lookup_empty in Hk. discriminate.
Qed.

(** ** What the flush saves *)

(** X3.  Whatever [DumpBanlist] hands to the store is the map it leaves in
    the registry.  Every entry of it was in the registry before with the
    same timestamps and had not expired at either of the two clock readings
    of the flush; and a write only happens when the flag was set after the
    first sweep. *)
Theorem DumpBanlist_snapshot (s : State CSubNet) (banmap : banmap_t)
    (r : bool) :
  EvDbWrite banmap r ∈ events_of DumpBanlist s ->
  banmap = m_banned (obj (DumpBanlist s).2)
  /\ r = write_ok (env s) (writes (env s))
  /\ m_is_dirty (obj (SweepBanned s).2) = true
  /\ (forall k e, banmap !! k = Some e ->
        m_banned (obj s) !! k = Some e
        /\ clock (env s) (ticks (env s)) <= nBanUntil e
        /\ clock (env s) (S (ticks (env s))) <= nBanUntil e).
Proof.
  rewrite DumpBanlist_events, DumpBanlist_run, SweepBanned_run. cbn [snd].
  intros (Hd & -> & ->)%dump_events_write.
  split_and!; [|done|done|].
  - by rewrite dump_state_banned, Hd.
  - intros k e [[Hk H1]%live_entries_Some H2]%live_entries_Some. done.
Qed.

(** A flush of a clean registry none of whose entries has expired does
    nothing but take and release the lock. *)
Lemma dump_state_idle (x : State CSubNet) :
  m_is_dirty (obj x) = false ->
  (forall k e, m_banned (obj x) !! k = Some e ->
               clock (env x) (ticks (env x)) <= nBanUntil e) ->
  obj (dump_state x) = obj x
  /\ writes (env (dump_state x)) = writes (env x)
  /\ dump_events x = [EvLock; EvUnlock; EvLock; EvUnlock].
Proof.
  intros Hd Hlive.
  assert (Hany : any_expired (clock (env x) (ticks (env x)))
                   (map_to_list (m_banned (obj x))) = false)
    by by apply any_expired_false.
  assert (Hobj : obj (sweep_state x) = obj x).
  { unfold sweep_state. cbn [obj]. rewrite Hany, live_entries_id by done.
    rewrite orb_false_r. by destruct x as [[] ?]. }
  assert (Hsd : m_is_dirty (obj (sweep_state x)) = false) by by rewrite Hobj.
  unfold dump_state, dump_events, sweep_events. cbv zeta.
  change (m_is_dirty (obj (log [EvLock; EvUnlock] (sweep_state x))))
    with (m_is_dirty (obj (sweep_state x))).
  rewrite Hsd, Hany. cbn [negb andb]. split_and!; [exact Hobj|done|done].
Qed.

(** X4.  Shutdown and start-up round trip: when the destructor's flush has
    saved the ban map, a registry constructed from that file, before any of
    its entries expires, holds the same map as the one destroyed, is not
    dirty and has not written to the store. *)
Theorem shutdown_startup_roundtrip (s : State CSubNet) (banmap : banmap_t)
    (client_interface : bool) (default_ban_time : Z) (w : World CSubNet) :
  EvDbWrite banmap true ∈ events_of BanMan_delete s ->
  (forall k e, banmap !! k = Some e -> clock w (ticks w) <= nBanUntil e) ->
  let s' := BanMan_built client_interface default_ban_time (Some banmap) w in
  m_banned (obj s') = m_banned (obj (BanMan_delete s).2)
  /\ m_is_dirty (obj s') = false
  /\ writes (env s') = writes w
  /\ m_is_dirty (obj (BanMan_delete s).2) = false.
Proof.
  unfold BanMan_delete. intros Hin Hlive. cbv zeta.
  rewrite DumpBanlist_events in Hin.
  destruct (dump_events_write s banmap true Hin) as (Hd & Hb & Hok).
  rewrite DumpBanlist_run. cbn [snd].
  destruct (dump_state_write s Hd) as (Hfinal & _ & _).
  rewrite <- Hok in Hfinal.
  rewrite dump_state_banned, Hd, <- Hb.
  unfold BanMan_built. rewrite BanMan_load_some. cbn [snd].
  rewrite sweep_state_banned, sweep_state_dirty, sweep_state_writes.
  set (X := log _ _).
  change (m_banned (obj X)) with banmap.
  change (m_is_dirty (obj X)) with false.
  change (clock (env X)) with (clock w).
  change (ticks (env X)) with (ticks w).
  change (writes (env X)) with (writes w).
  clearbody X.
  rewrite live_entries_id by done.
  rewrite (proj2 (any_expired_false _ _)) by done.
  done.
Qed.

(** X5.  After a flush the registry is dirty exactly when the flush had to
    write and the write failed.  A further flush of a registry left clean,
    at a time when none of its entries has expired, writes nothing, changes
    nothing and notifies nobody. *)
Theorem DumpBanlist_again (s : State CSubNet) :
  let s1 := (DumpBanlist s).2 in
  (m_is_dirty (obj s1) = true <->
   m_is_dirty (obj (SweepBanned s).2) = true
   /\ write_ok (env s) (writes (env s)) = false)
  /\ (m_is_dirty (obj s1) = false ->
      (forall k e, m_banned (obj s1) !! k = Some e ->
                   clock (env s1) (ticks (env s1)) <= nBanUntil e) ->
      obj (DumpBanlist s1).2 = obj s1
      /\ writes (env (DumpBanlist s1).2) = writes (env s1)
      /\ events_of DumpBanlist s1 = [EvLock; EvUnlock; EvLock; EvUnlock]).
Proof.
  cbv zeta. rewrite !DumpBanlist_run, SweepBanned_run. cbn [snd]. split.
  - destruct (m_is_dirty (obj (sweep_state s))) eqn:Hd.
    + destruct (dump_state_write s Hd) as (-> & _ & _).
      destruct (write_ok _ _); cbn [negb]; intuition discriminate.
    + assert (Hrun : dump_state s = log [EvLock; EvUnlock] (sweep_state s)).
      { unfold dump_state. cbv zeta.
        change (m_is_dirty (obj (log [EvLock; EvUnlock] (sweep_state s))))
          with (m_is_dirty (obj (sweep_state s))).
        by rewrite Hd. }
      rewrite Hrun.
      change (m_is_dirty (obj (log [EvLock; EvUnlock] (sweep_state s))))
        with (m_is_dirty (obj (sweep_state s))).
      rewrite Hd. intuition discriminate.
  - intros Hclean Hlive. rewrite DumpBanlist_events.
    by apply dump_state_idle.
Qed.

(** ** More on [Ban] *)

Lemma dump_state_clock (x : State CSubNet) :
  clock (env (dump_state x)) = clock (env x).
Proof.
  unfold dump_state. cbv zeta.
  destruct (negb _); [done|]. by destruct (write_ok _ _).
Qed.

Lemma consolidated_lookup_other (sub_net k : CSubNet) new_ban_entry e
    (banned : banmap_t) :
  k <> sub_net ->
  consolidated sub_net new_ban_entry banned !! k = Some e <->
  banned !! k = Some e /\ absorbs sub_net new_ban_entry (k, e) = false.
Proof.
  intros Hne. unfold consolidated. rewrite lookup_insert_ne by done.
  apply map_lookup_filter_Some.
Qed.

(** X6.  [Ban] returns [false] exactly when some banned subnet is a
    superset of the new one and is banned at least as long as the new ban
    would last; in every other case it returns [true]. *)
Theorem Ban_refused_iff (sub_net : CSubNet) (ban_time_offset : Z)
    (since_unix_epoch : bool) (s : State CSubNet) :
  let new_ban_entry := (Ban_entry ban_time_offset since_unix_epoch s).1 in
  ((Ban sub_net ban_time_offset since_unix_epoch s).1 = false <->
   exists k e, m_banned (obj s) !! k = Some e
               /\ IsSuperset k sub_net = true
               /\ nBanUntil new_ban_entry <= nBanUntil e)
  /\ ((Ban sub_net ban_time_offset since_unix_epoch s).1 = true <->
      forall k e, m_banned (obj s) !! k = Some e ->
                  IsSuperset k sub_net = true ->
                  nBanUntil e < nBanUntil new_ban_entry).
Proof.
  cbv zeta. rewrite Ban_entry_run, Ban_run. cbv zeta. cbn [fst].
  set (new_ban_entry := candidate_entry ban_time_offset since_unix_epoch s).
  assert (Hrej : rejected sub_net new_ban_entry (m_banned (obj s)) = true <->
                 exists k e, m_banned (obj s) !! k = Some e
                             /\ IsSuperset k sub_net = true
                             /\ nBanUntil new_ban_entry <= nBanUntil e).
  { rewrite rejected_true. unfold rejects. cbn [fst snd].
    split; intros (k & e & Hk & Hr); exists k, e; (split; [done|]).
    - apply andb_true_iff in Hr as [? ?%Z.leb_le]. done.
    - destruct Hr as [-> ?%Z.leb_le]. done. }
  destruct (rejected sub_net new_ban_entry (m_banned (obj s))) eqn:Hr;
    cbn [fst]; split.
  - by rewrite <- Hrej.
  - split; [done|]. intros Hall.
    destruct (proj1 Hrej eq_refl) as (k & e & Hk & Hs & Hle).
    specialize (Hall k e Hk Hs). lia.
  - split; [done|]. intros Hex. apply Hrej in Hex. done.
  - split; [|done]. intros _ k e Hk Hs.
    destruct (decide (nBanUntil e < nBanUntil new_ban_entry)); [done|].
    assert (false = true); [|done]. apply Hrej. exists k, e.
    split_and!; [done..|lia].
Qed.

(** X7.  What a successful [Ban] does to the other keys: an entry under
    another key is in the registry after the call exactly when it was there
    before, is not a subset of the new subnet outlived by the new ban, and
    had not expired at either clock reading of the flush.  The call adds no
    key but the one banned. *)
Theorem Ban_other_entries (sub_net k : CSubNet) (e : CBanEntry)
    (ban_time_offset : Z) (since_unix_epoch : bool) (s : State CSubNet) :
  let new_ban_entry := (Ban_entry ban_time_offset since_unix_epoch s).1 in
  let t := ticks (env (Ban_entry ban_time_offset since_unix_epoch s).2) in
  (Ban sub_net ban_time_offset since_unix_epoch s).1 = true ->
  k <> sub_net ->
  (m_banned (obj (Ban sub_net ban_time_offset since_unix_epoch s).2) !! k
     = Some e <->
   m_banned (obj s) !! k = Some e
   /\ ~ (IsSuperset sub_net k = true
         /\ nBanUntil new_ban_entry > nBanUntil e)
   /\ clock (env s) t <= nBanUntil e
   /\ clock (env s) (S t) <= nBanUntil e).
Proof.
  cbv zeta. rewrite Ban_entry_run, Ban_run. cbv zeta. cbn [fst snd].
  set (new_ban_entry := candidate_entry ban_time_offset since_unix_epoch s).
  set (s0 := after_candidate ban_time_offset since_unix_epoch s).
  destruct (rejected _ _ _); cbn [fst snd]; [done|]. intros _ Hne.
  set (X := log _ _).
  assert (HXb : m_banned (obj X)
                = consolidated sub_net new_ban_entry (m_banned (obj s)))
    by reflexivity.
  assert (HXc : clock (env X) = clock (env s)).
  { change (clock (env X)) with (clock (env s0)).
    apply after_candidate_env. }
  assert (HXt : ticks (env X) = ticks (env s0)) by reflexivity.
  assert (HXd : m_is_dirty (obj (sweep_state X)) = true) by reflexivity.
  clearbody X.
  rewrite dump_state_banned, HXd, HXb, HXc, HXt.
  rewrite !live_entries_Some, consolidated_lookup_other by done.
  unfold absorbs. cbn [fst snd].
  rewrite andb_false_iff, gtb_false.
  split.
  - intros [[[Hk Ha] H1] H2]. split_and!; [done| |done|done].
    intros [Hs Hgt]. destruct Ha as [Ha|Ha]; [congruence|lia].
  - intros (Hk & Ha & H1 & H2). split_and!; [done| |done|done].
    destruct (IsSuperset sub_net k); [|by left]. right.
    destruct (decide (nBanUntil new_ban_entry <= nBanUntil e)); [done|].
    exfalso. apply Ha. split; [done|lia].
Qed.

(** X8.  After [Ban sub_net] has returned, whatever it returned, a query
    for [sub_net] answers [true], as long as the clock stays before the
    expiry computed for the new ban and a subnet is a superset of itself. *)
Theorem Ban_then_banned (sub_net : CSubNet) (ban_time_offset : Z)
    (since_unix_epoch : bool) (s : State CSubNet) :
  IsSuperset sub_net sub_net = true ->
  (forall n, clock (env s) n
             < nBanUntil (Ban_entry ban_time_offset since_unix_epoch s).1) ->
  (HasBannedAddresses sub_net
     (Ban sub_net ban_time_offset since_unix_epoch s).2).1 = true.
Proof.
  rewrite Ban_entry_run, Ban_run, HasBannedAddresses_run. cbv zeta.
  cbn [fst].
  set (new_ban_entry := candidate_entry ban_time_offset since_unix_epoch s).
  set (s0 := after_candidate ban_time_offset since_unix_epoch s).
  intros Hrefl Hclock.
  assert (Hs0c : clock (env s0) = clock (env s)) by apply after_candidate_env.
  assert (Hs0o : obj s0 = obj s) by apply after_candidate_obj.
  apply overlap_loop_true.
  destruct (rejected sub_net new_ban_entry (m_banned (obj s))) eqn:Hr;
    cbn [snd].
  - apply rejected_true in Hr as (k & e & Hk & Hr).
    unfold rejects in Hr. cbn [fst snd] in Hr.
    apply andb_true_iff in Hr as [Hs Hle%Z.leb_le].
    exists k, e. cbn [log obj env clock ticks]. rewrite Hs0o, Hs0c.
    split_and!.
    + by apply elem_of_map_to_list.
    + unfold overlaps. by rewrite Hs.
    + specialize (Hclock (ticks (env s0))). lia.
  - set (X := log _ _).
    assert (HXb : m_banned (obj X)
                  = consolidated sub_net new_ban_entry (m_banned (obj s)))
      by reflexivity.
    assert (HXc : clock (env X) = clock (env s)) by exact Hs0c.
    assert (HXd : m_is_dirty (obj (sweep_state X)) = true) by reflexivity.
    clearbody X.
    exists sub_net, new_ban_entry. split_and!.
    + apply elem_of_map_to_list.
      rewrite dump_state_banned, HXd, HXb, HXc.
      rewrite !live_entries_Some, consolidated_lookup_new.
      split_and!; [done|apply Z.lt_le_incl, Hclock..].
    + unfold overlaps. by rewrite Hrefl.
    + rewrite dump_state_clock, HXc. apply Hclock.
Qed.

(** X9.  The block of [Ban] under the lock never loses coverage.  Whether
    it stores the new entry or refuses it, some entry afterwards covers the
    new subnet for at least as long as the new ban; and, a subnet being a
    superset of itself, every entry that was there is afterwards still
    covered, by itself or by a superset, for at least as long as before. *)
Theorem Ban_locked_keeps_coverage (sub_net : CSubNet)
    (new_ban_entry : CBanEntry) (s : State CSubNet) :
  let banned' := m_banned (obj (Ban_locked sub_net new_ban_entry s).2) in
  (exists k' e', banned' !! k' = Some e'
                 /\ (k' = sub_net \/ IsSuperset k' sub_net = true)
                 /\ nBanUntil new_ban_entry <= nBanUntil e')
  /\ (IsSuperset sub_net sub_net = true ->
      forall k e, m_banned (obj s) !! k = Some e ->
        exists k' e', banned' !! k' = Some e'
                      /\ (k' = k \/ IsSuperset k' k = true)
                      /\ nBanUntil e <= nBanUntil e').
Proof.
  cbv zeta. rewrite Ban_locked_run.
  destruct (rejected sub_net new_ban_entry (m_banned (obj s))) eqn:Hr;
    cbn [snd log with_banned obj m_banned].
  - split.
    + apply rejected_true in Hr as (k & e & Hk & Hr).
      unfold rejects in Hr. cbn [fst snd] in Hr.
      apply andb_true_iff in Hr as [Hs Hle%Z.leb_le].
      exists k, e. auto.
    + intros _ k e Hk. exists k, e. split_and!; [done|by left|lia].
  - split.
    + exists sub_net, new_ban_entry.
      split_and!; [apply consolidated_lookup_new|by left|lia].
    + intros Hrefl k e Hk.
      assert (Hnr : rejects sub_net new_ban_entry (k, e) = false).
      { apply not_true_is_false. intros Hrk.
        assert (rejected sub_net new_ban_entry (m_banned (obj s)) = true);
          [|congruence].
        apply rejected_true. eauto. }
      destruct (decide (k = sub_net)) as [->|Hne].
      * exists sub_net, new_ban_entry.
        split_and!; [apply consolidated_lookup_new|by left|].
        unfold rejects in Hnr. cbn [fst snd] in Hnr.
        rewrite Hrefl in Hnr. cbn [andb] in Hnr.
        apply Z.leb_gt in Hnr. lia.
      * destruct (absorbs sub_net new_ban_entry (k, e)) eqn:Ha.
        -- exists sub_net, new_ban_entry. unfold absorbs in Ha.
           cbn [fst snd] in Ha. apply andb_true_iff in Ha as [Hs Hgt%gtb_true].
           split_and!; [apply consolidated_lookup_new|by right|lia].
        -- exists k, e. split_and!; [|by left|lia].
           by apply consolidated_lookup_other.
Qed.

(** ** The consolidation invariant *)

Lemma no_shadowed_subseteq (banned banned' : banmap_t) :
  banned' ⊆ banned -> no_shadowed banned -> no_shadowed banned'.
Proof.
  intros Hsub Hinv k1 e1 k2 e2 H1 H2.
  apply (Hinv k1 e1 k2 e2); by eapply lookup_weaken.
Qed.

Lemma live_entries_subseteq now (banned : banmap_t) :
  live_entries now banned ⊆ banned.
Proof. apply map_filter_subseteq. Qed.

Lemma dump_state_subseteq (x : State CSubNet) :
  m_banned (obj (dump_state x)) ⊆ m_banned (obj x).
Proof.
  rewrite dump_state_banned. destruct (m_is_dirty _).
  - etrans; apply live_entries_subseteq.
  - apply live_entries_subseteq.
Qed.

Lemma no_shadowed_consolidated (sub_net : CSubNet) new_ban_entry
    (banned : banmap_t) :
  rejected sub_net new_ban_entry banned = false ->
  no_shadowed banned ->
  no_shadowed (consolidated sub_net new_ban_entry banned).
Proof.
  intros Hnr Hinv k1 e1 k2 e2 H1 H2 Hne Hsup Hgt.
  destruct (decide (k1 = sub_net)) as [->|Hne1].
  - (* the new entry would shadow [k2]: it has absorbed it *)
    rewrite consolidated_lookup_new in H1. injection H1 as <-.
    apply consolidated_lookup_other in H2 as [H2 Ha]; [|done].
    unfold absorbs in Ha. cbn [fst snd] in Ha. rewrite Hsup in Ha.
    apply gtb_false in Ha. lia.
  - apply consolidated_lookup_other in H1 as [H1 _]; [|done].
    destruct (decide (k2 = sub_net)) as [->|Hne2].
    + (* [k1] would shadow the new entry: it has made the scan refuse *)
      rewrite consolidated_lookup_new in H2. injection H2 as <-.
      assert (rejected sub_net new_ban_entry banned = true); [|congruence].
      apply rejected_true. exists k1, e1. split; [done|].
      unfold rejects. cbn [fst snd]. rewrite Hsup. apply Z.leb_le. lia.
    + apply consolidated_lookup_other in H2 as [H2 _]; [|done].
      by apply (Hinv k1 e1 k2 e2).
Qed.

(** X10.  Consolidation invariant.  Call a ban map consolidated when no
    entry is outlived by a different entry whose subnet contains it.  If
    the registry is consolidated, it still is after [Ban], [Unban],
    [ClearBanned], [SweepBanned], [GetBanned] and [DumpBanlist], and what
    [GetBanned] returns is consolidated too. *)
Theorem no_shadowed_preserved (s : State CSubNet) :
  no_shadowed (m_banned (obj s)) ->
  (forall sub_net ban_time_offset since_unix_epoch,
     no_shadowed
       (m_banned (obj (Ban sub_net ban_time_offset since_unix_epoch s).2)))
  /\ (forall sub_net, no_shadowed (m_banned (obj (Unban sub_net s).2)))
  /\ no_shadowed (m_banned (obj (ClearBanned s).2))
  /\ no_shadowed (m_banned (obj (SweepBanned s).2))
  /\ no_shadowed (m_banned (obj (GetBanned s).2))
  /\ no_shadowed (GetBanned s).1
  /\ no_shadowed (m_banned (obj (DumpBanlist s).2)).
Proof.
  intros Hinv. split_and!.
  - intros sub_net off se. rewrite Ban_run. cbv zeta.
    destruct (rejected _ _ _) eqn:Hr; cbn [snd].
    + cbn [log obj]. by rewrite after_candidate_obj.
    + eapply no_shadowed_subseteq; [apply dump_state_subseteq|].
      cbn [log with_banned obj m_banned].
      by apply no_shadowed_consolidated.
  - intros sub_net. rewrite Unban_run.
    destruct (_ !! _); cbn [snd]; [|done].
    eapply no_shadowed_subseteq; [apply dump_state_subseteq|].
    cbn [log with_banned obj m_banned].
    eapply no_shadowed_subseteq; [apply delete_subseteq|done].
  - destruct (ClearBanned_effect s) as (Hb & _). cbv zeta in Hb.
    rewrite Hb. intros k1 e1 k2 e2 H1. by rewrite lookup_empty in H1.
  - rewrite SweepBanned_run. cbn [snd]. rewrite sweep_state_banned.
    eapply no_shadowed_subseteq; [apply live_entries_subseteq|done].
  - rewrite GetBanned_run. cbn [snd log obj]. rewrite sweep_state_banned.
    eapply no_shadowed_subseteq; [apply live_entries_subseteq|done].
  - rewrite GetBanned_run. cbn [fst].
    eapply no_shadowed_subseteq; [apply live_entries_subseteq|done].
  - rewrite DumpBanlist_run. cbn [snd].
    eapply no_shadowed_subseteq; [apply dump_state_subseteq|done].
Qed.

(** ** [Unban] *)

(** X11.  [Unban] works on the exact key only.  When it returns [true], an
    entry under another key is in the registry afterwards exactly when it
    was there before and had not expired at either clock reading of the
    flush; and unbanning the same subnet once more returns [false], changes
    nothing in the registry and writes nothing. *)
Theorem Unban_exact_key (sub_net : CSubNet) (s : State CSubNet) :
  let t := ticks (env s) in
  let final := (Unban sub_net s).2 in
  (Unban sub_net s).1 = true ->
  (forall k e, k <> sub_net ->
     (m_banned (obj final) !! k = Some e <->
      m_banned (obj s) !! k = Some e
      /\ clock (env s) t <= nBanUntil e
      /\ clock (env s) (S t) <= nBanUntil e))
  /\ (Unban sub_net final).1 = false
  /\ obj (Unban sub_net final).2 = obj final
  /\ writes (env (Unban sub_net final).2) = writes (env final).
Proof.
  cbv zeta. rewrite (Unban_run sub_net s).
  destruct (m_banned (obj s) !! sub_net) eqn:Hk; cbn [fst snd]; [|done].
  intros _. set (X := log _ _).
  assert (HXb : m_banned (obj X) = delete sub_net (m_banned (obj s)))
    by reflexivity.
  assert (HXc : clock (env X) = clock (env s)) by reflexivity.
  assert (HXt : ticks (env X) = ticks (env s)) by reflexivity.
  assert (HXd : m_is_dirty (obj (sweep_state X)) = true) by reflexivity.
  clearbody X.
  assert (Hgone : m_banned (obj (dump_state X)) !! sub_net = None).
  { apply dump_state_None. rewrite HXb. apply lookup_delete_eq. }
  split.
  - intros k e Hne.
    rewrite dump_state_banned, HXd, HXb, HXc, HXt, !live_entries_Some.
    rewrite lookup_delete_ne by done. tauto.
  - rewrite Unban_run, Hgone. done.
Qed.

(** ** Sweeping again *)

(** X12.  Two sweeps in a row.  If the clock has not gone back between
    them, the registry afterwards holds what one sweep at the later time
    would have left.  If the clock has not advanced, the second sweep
    changes nothing and notifies nobody. *)
Theorem SweepBanned_twice (s : State CSubNet) :
  let t1 := clock (env s) (ticks (env s)) in
  let t2 := clock (env s) (S (ticks (env s))) in
  let s1 := (SweepBanned s).2 in
  let s2 := (SweepBanned s1).2 in
  (t1 <= t2 ->
   m_banned (obj s2)
   = filter (fun kv => ¬ t2 > nBanUntil kv.2) (m_banned (obj s)))
  /\ (t2 <= t1 ->
      obj s2 = obj s1 /\ events_of SweepBanned s1 = [EvLock; EvUnlock]).
Proof.
  cbv zeta. rewrite SweepBanned_events, !SweepBanned_run. cbn [snd].
  set (s1 := sweep_state s).
  assert (H1b : m_banned (obj s1)
                = live_entries (clock (env s) (ticks (env s)))
                    (m_banned (obj s))) by reflexivity.
  assert (H1c : clock (env s1) = clock (env s)) by reflexivity.
  assert (H1t : ticks (env s1) = S (ticks (env s))) by reflexivity.
  clearbody s1. split.
  - intros Hle. rewrite sweep_state_banned, H1b, H1c, H1t.
    apply map_eq. intros k. fold (live_entries (clock (env s) (S (ticks (env s))))
                                   (m_banned (obj s))).
    rewrite !live_entries_lookup.
    destruct (m_banned (obj s) !! k) as [e|]; [|done].
    destruct (clock (env s) (ticks (env s)) >? nBanUntil e) eqn:Hg1.
    + apply gtb_true in Hg1.
      by rewrite (proj2 (gtb_true (clock (env s) (S (ticks (env s)))) _))
        by lia.
    + done.
  - intros Hle.
    assert (Hany : any_expired (clock (env s1) (ticks (env s1)))
                     (map_to_list (m_banned (obj s1))) = false).
    { apply any_expired_false. intros k e Hk. rewrite H1c, H1t.
      rewrite H1b in Hk. apply live_entries_Some in Hk as [_ Hk]. lia. }
    split.
    + unfold sweep_state. cbn [obj]. rewrite Hany, orb_false_r.
      rewrite live_entries_id by by apply any_expired_false.
      by destruct s1 as [[] ?].
    + unfold sweep_events. by rewrite Hany.
Qed.

(** ** Lock discipline *)

Lemma lock_walk_app held (evs1 evs2 : list (Event CSubNet)) :
  lock_walk held (evs1 ++ evs2)
  = match lock_walk held evs1 with
    | Some held' => lock_walk held' evs2
    | None => None
    end.
Proof.
  revert held. induction evs1 as [|ev evs1 IH]; intros held; [done|].
  destruct ev; cbn [app lock_walk]; try apply IH; by destruct held.
Qed.

Lemma lock_walk_sweep held (x : State CSubNet) :
  lock_walk held (sweep_events x) = Some held.
Proof. unfold sweep_events. by destruct (_ && _). Qed.

Lemma lock_walk_dump (x : State CSubNet) :
  lock_walk 0 (dump_events x) = Some 0%nat.
Proof.
  unfold dump_events. cbv zeta.
  rewrite lock_walk_app, lock_walk_sweep. cbn [app lock_walk].
  destruct (m_is_dirty _); [|done].
  cbn [app lock_walk]. rewrite lock_walk_app, lock_walk_sweep.
  cbn [app lock_walk]. by destruct (write_ok _ _).
Qed.

Lemma lock_walk_notification held (x : State CSubNet) evs :
  lock_walk held (notification x ++ evs) = lock_walk held evs.
Proof. unfold notification. by destruct (m_client_interface _). Qed.

Lemma GetBanned_events (s : State CSubNet) :
  events_of GetBanned s = [EvLock] ++ sweep_events s ++ [EvUnlock].
Proof.
  apply events_of_intro. rewrite GetBanned_run. cbn [snd log env trace].
  rewrite sweep_state_events. cbn [log env trace].
  change (sweep_events (log [EvLock] s)) with (sweep_events s).
  by rewrite <- !app_assoc.
Qed.

Lemma BanMan_load_events (read : option banmap_t) (s : State CSubNet) :
  events_of (BanMan_load read) s
  = match read with
    | Some banmap =>
        [EvLock; EvUnlock; EvLock; EvUnlock]
        ++ sweep_events
             (log [EvLock; EvUnlock; EvLock; EvUnlock]
                (with_banned banmap false s))
    | None =>
        [EvLock; EvUnlock]
        ++ dump_events
             (log [EvLock; EvUnlock]
                (with_banned (m_banned (obj s)) true s))
    end.
Proof.
  apply events_of_intro. destruct read as [banmap|].
  - rewrite BanMan_load_some. cbn [snd]. rewrite sweep_state_events.
    cbn [log env trace]. by rewrite <- app_assoc.
  - rewrite BanMan_load_none. cbn [snd].
    rewrite dump_state_trace, DumpBanlist_events. cbn [log env trace].
    by rewrite <- app_assoc.
Qed.

(** X13.  Lock discipline.  In the events of every operation each lock
    taken is released again, none is released that is not held, every
    operation ends with the lock free (also [Ban] on its early return), and
    the store is only ever written while the lock is free. *)
Theorem lock_discipline (s : State CSubNet) :
  (forall sub_net ban_time_offset since_unix_epoch,
     lock_walk 0 (events_of (Ban sub_net ban_time_offset since_unix_epoch) s)
     = Some 0%nat)
  /\ (forall sub_net, lock_walk 0 (events_of (Unban sub_net) s) = Some 0%nat)
  /\ lock_walk 0 (events_of ClearBanned s) = Some 0%nat
  /\ lock_walk 0 (events_of DumpBanlist s) = Some 0%nat
  /\ lock_walk 0 (events_of SweepBanned s) = Some 0%nat
  /\ lock_walk 0 (events_of GetBanned s) = Some 0%nat
  /\ (forall banmap, lock_walk 0 (events_of (SetBanned banmap) s) = Some 0%nat)
  /\ (forall sub_net,
        lock_walk 0 (events_of (HasBannedAddresses sub_net) s) = Some 0%nat)
  /\ (forall read, lock_walk 0 (events_of (BanMan_load read) s) = Some 0%nat).
Proof.
  split_and!.
  - intros sub_net off se. rewrite Ban_events. cbn [app lock_walk].
    destruct (Ban _ _ _ _).1; [|done].
    by rewrite lock_walk_notification, DumpBanlist_events, lock_walk_dump.
  - intros sub_net. rewrite Unban_events. cbn [app lock_walk].
    destruct (Unban _ _).1; [|done].
    by rewrite lock_walk_notification, DumpBanlist_events, lock_walk_dump.
  - rewrite ClearBanned_events. cbn [app lock_walk].
    rewrite lock_walk_app, DumpBanlist_events, lock_walk_dump.
    rewrite <- (app_nil_r (notification s)). by rewrite lock_walk_notification.
  - by rewrite DumpBanlist_events, lock_walk_dump.
  - by rewrite SweepBanned_events, lock_walk_sweep.
  - rewrite GetBanned_events. cbn [app lock_walk].
    by rewrite lock_walk_app, lock_walk_sweep.
  - intros banmap. rewrite (events_of_intro (SetBanned banmap) s [EvLock; EvUnlock]);
      [done|by rewrite SetBanned_run].
  - intros sub_net.
    rewrite (events_of_intro (HasBannedAddresses sub_net) s [EvLock; EvUnlock]);
      [done|by rewrite HasBannedAddresses_run].
  - intros read. rewrite BanMan_load_events. destruct read.
    + cbn [app lock_walk]. apply lock_walk_sweep.
    + cbn [app lock_walk]. apply lock_walk_dump.
Qed.

(** ** [GetBanned] *)

(** X14.  [GetBanned] is a read that sweeps: it returns a copy of the map
    it leaves in the registry, none of whose entries has expired; it sets
    the dirty flag when it removed an entry, so that the next flush writes
    even if the registry was clean; it writes nothing itself; and when it
    removed an entry and a UI is attached, the UI is notified while the
    lock taken by [GetBanned] is still held. *)
Theorem GetBanned_sweeps (s : State CSubNet) :
  let now := clock (env s) (ticks (env s)) in
  let removed :=
    exists k e, m_banned (obj s) !! k = Some e /\ now > nBanUntil e in
  (GetBanned s).1 = m_banned (obj (GetBanned s).2)
  /\ (forall k e, (GetBanned s).1 !! k = Some e -> now <= nBanUntil e)
  /\ (m_is_dirty (obj (GetBanned s).2) = true <->
      m_is_dirty (obj s) = true \/ removed)
  /\ writes (env (GetBanned s).2) = writes (env s)
  /\ (removed ->
      writes (env (DumpBanlist (GetBanned s).2).2) = S (writes (env s)))
  /\ (removed -> m_client_interface (obj s) = true ->
      events_of GetBanned s
      = [EvLock; EvLock; EvUnlock; EvBannedListChanged; EvUnlock])
  /\ (~ removed ->
      events_of GetBanned s = [EvLock; EvLock; EvUnlock; EvUnlock]).
Proof.
  cbv zeta. rewrite GetBanned_events, GetBanned_run, DumpBanlist_run.
  cbn [fst snd].
  assert (Hany : any_expired (clock (env s) (ticks (env s)))
                   (map_to_list (m_banned (obj s))) = true
                 <-> exists k e, m_banned (obj s) !! k = Some e
                       /\ clock (env s) (ticks (env s)) > nBanUntil e).
  { rewrite any_expired_true. split; intros (k & e & Hk & Hgt); exists k, e;
      (split; [by apply elem_of_map_to_list|done]). }
  set (X := log [EvUnlock] (sweep_state (log [EvLock] s))).
  assert (HXb : m_banned (obj X)
                = live_entries (clock (env s) (ticks (env s)))
                    (m_banned (obj s))) by reflexivity.
  assert (HXd : m_is_dirty (obj X)
                = m_is_dirty (obj s)
                  || any_expired (clock (env s) (ticks (env s)))
                       (map_to_list (m_banned (obj s)))) by reflexivity.
  assert (HXw : writes (env X) = writes (env s)) by reflexivity.
  clearbody X. split_and!.
  - by rewrite HXb.
  - intros k e Hk. by apply live_entries_Some in Hk as [_ ?].
  - rewrite HXd, orb_true_iff, Hany. done.
  - done.
  - intros Hrem. apply Hany in Hrem.
    assert (HXd' : m_is_dirty (obj X) = true)
      by by rewrite HXd, Hrem, orb_true_r.
    destruct (dump_state_dirty X HXd') as (_ & -> & _). by rewrite HXw.
  - intros Hrem Hci. apply Hany in Hrem. unfold sweep_events.
    by rewrite Hrem, Hci.
  - intros Hrem. unfold sweep_events.
    destruct (any_expired _ _) eqn:Ha; [|done].
    exfalso. apply Hrem. by apply Hany.
Qed.

(** X15.  After [ClearBanned] nothing is banned, at whatever time one asks:
    every overlap query answers [false], [GetBanned] returns the empty map
    and every [Unban] returns [false]. *)
Theorem ClearBanned_forgets (s : State CSubNet) (w : World CSubNet) :
  let cleared := in_world w (ClearBanned s).2 in
  (forall sub_net, (HasBannedAddresses sub_net cleared).1 = false)
  /\ (GetBanned cleared).1 = ∅
  /\ (forall sub_net, (Unban sub_net cleared).1 = false).
Proof.
  cbv zeta. destruct (ClearBanned_effect s) as (Hb & _). cbv zeta in Hb.
  generalize dependent (ClearBanned s).2. intros x Hb.
  set (c := in_world w x).
  assert (Hc : m_banned (obj c) = ∅) by exact Hb.
  clearbody c. split_and!.
  - intros sub_net. rewrite HasBannedAddresses_run. cbn [fst].
    by rewrite Hc, map_to_list_empty.
  - rewrite GetBanned_run. cbn [fst]. by rewrite Hc, live_entries_empty.
  - intros sub_net. rewrite Unban_run, Hc, lookup_empty. done.
Qed.

(** ** Write-through *)

(** X16.  Write-through.  When [Ban] or [Unban] returns [true] the store
    has been handed, during the call and after the notification, the very
    map the registry holds when the call returns; if that write succeeded
    the registry is clean.  A call that returns [false] does not touch the
    store. *)
Theorem mutation_is_saved (s : State CSubNet) :
  let ok := write_ok (env s) (writes (env s)) in
  (forall sub_net ban_time_offset since_unix_epoch,
     let r := Ban sub_net ban_time_offset since_unix_epoch s in
     (r.1 = true ->
      EvDbWrite (m_banned (obj r.2)) ok
        ∈ events_of (Ban sub_net ban_time_offset since_unix_epoch) s
      /\ writes (env r.2) = S (writes (env s))
      /\ m_is_dirty (obj r.2) = negb ok)
     /\ (r.1 = false -> writes (env r.2) = writes (env s)))
  /\ (forall sub_net,
        let r := Unban sub_net s in
        (r.1 = true ->
         EvDbWrite (m_banned (obj r.2)) ok ∈ events_of (Unban sub_net) s
         /\ writes (env r.2) = S (writes (env s))
         /\ m_is_dirty (obj r.2) = negb ok)
        /\ (r.1 = false -> writes (env r.2) = writes (env s))).
Proof.
  cbv zeta. split.
  - intros sub_net off se.
    destruct (after_candidate_env off se s) as (_ & Hw & Hwo & _).
    rewrite Ban_events.
    destruct (rejected sub_net (candidate_entry off se s) (m_banned (obj s)))
      eqn:Hr.
    + rewrite Ban_run. cbv zeta. rewrite Hr. cbn [fst snd]. split; [done|].
      intros _. exact Hw.
    + rewrite (Ban_flush_state sub_net off se s Hr).
      rewrite Ban_run. cbv zeta. rewrite Hr. cbn [fst snd].
      split; [|done]. intros _.
      set (X := log _ _).
      assert (HXd : m_is_dirty (obj X) = true) by reflexivity.
      assert (HXw : writes (env X) = writes (env s)) by exact Hw.
      assert (HXo : write_ok (env X) = write_ok (env s)) by exact Hwo.
      clearbody X.
      destruct (dump_state_dirty X HXd) as (Hd & Hwr & Hev).
      rewrite HXw, HXo in Hd, Hev. rewrite HXw in Hwr.
      split_and!; [|done|done].
      apply elem_of_app. right. apply elem_of_app. right. exact Hev.
  - intros sub_net. rewrite Unban_events, Unban_locked_run, Unban_run.
    destruct (m_banned (obj s) !! sub_net); cbn [fst snd]; [|done].
    split; [|done]. intros _.
    rewrite BannedListChanged_run. cbn [snd]. rewrite log_log.
    change (notification (log [EvLock; EvUnlock] (with_banned _ true s)))
      with (notification s).
    set (X := log _ _).
    assert (HXd : m_is_dirty (obj X) = true) by reflexivity.
    assert (HXw : writes (env X) = writes (env s)) by reflexivity.
    assert (HXo : write_ok (env X) = write_ok (env s)) by reflexivity.
    clearbody X.
    destruct (dump_state_dirty X HXd) as (Hd & Hwr & Hev).
    rewrite HXw, HXo in Hd, Hev. rewrite HXw in Hwr.
    split_and!; [|done|done].
    apply elem_of_app. right. apply elem_of_app. right. exact Hev.
Qed.

(** * The stored record, the flush and clearing, on the whole call *)

(** The entry [Ban] leaves under the banned key, and what it saves. *)
Lemma Ban_stored (sub_net : CSubNet) (ban_time_offset : Z)
    (since_unix_epoch : bool) (s : State CSubNet) :
  let new_ban_entry := candidate_entry ban_time_offset since_unix_epoch s in
  let t := ticks (env (after_candidate ban_time_offset since_unix_epoch s)) in
  let final := (Ban sub_net ban_time_offset since_unix_epoch s).2 in
  rejected sub_net new_ban_entry (m_banned (obj s)) = false ->
  m_banned (obj final) !! sub_net
  = (if (clock (env s) t >? nBanUntil new_ban_entry)
        || (clock (env s) (S t) >? nBanUntil new_ban_entry)
     then None else Some new_ban_entry)
  /\ EvDbWrite (m_banned (obj final)) (write_ok (env s) (writes (env s)))
       ∈ events_of (Ban sub_net ban_time_offset since_unix_epoch) s.
Proof.
  cbv zeta. intros Hr.
  destruct (after_candidate_env ban_time_offset since_unix_epoch s)
    as (_ & Hw & Hwo & Hc).
  rewrite Ban_events, (Ban_flush_state sub_net _ _ s Hr).
  rewrite Ban_run. cbv zeta. rewrite Hr. cbn [fst snd].
  set (new_ban_entry := candidate_entry ban_time_offset since_unix_epoch s).
  set (s0 := after_candidate ban_time_offset since_unix_epoch s) in *.
  set (X := log _ _).
  assert (HXb : m_banned (obj X)
                = consolidated sub_net new_ban_entry (m_banned (obj s)))
    by reflexivity.
  assert (HXc : clock (env X) = clock (env s)) by exact Hc.
  assert (HXt : ticks (env X) = ticks (env s0)) by reflexivity.
  assert (HXd : m_is_dirty (obj X) = true) by reflexivity.
  assert (HXsd : m_is_dirty (obj (sweep_state X)) = true) by reflexivity.
  assert (HXw : writes (env X) = writes (env s)) by exact Hw.
  assert (HXo : write_ok (env X) = write_ok (env s)) by exact Hwo.
  clearbody X.
  destruct (dump_state_dirty X HXd) as (_ & _ & Hev).
  rewrite HXw, HXo in Hev. split.
  - rewrite dump_state_banned, HXsd, HXb, HXc, HXt.
    rewrite !live_entries_lookup, consolidated_lookup_new.
    destruct (clock (env s) (ticks (env s0)) >? nBanUntil new_ban_entry);
      cbn [orb]; [done|].
    by destruct (clock (env s) (S (ticks (env s0))) >? nBanUntil new_ban_entry).
  - apply elem_of_app. right. apply elem_of_app. right. exact Hev.
Qed.

(** C3.  The expiry of the record a call of [Ban] stores.  With a
    non-positive offset the default ban time is used and the since-epoch
    flag is ignored, so the expiry is the current time plus
    [m_default_ban_time]; otherwise it is the offset added to zero
    (since-epoch) or to the current time.  The sum is a 64-bit one and is
    the exact sum whenever that fits.  When the call returns [true] the
    record with this expiry (and the first clock reading as creation time)
    is the one stored under [sub_net] when the lock is released; it is
    still there when the call returns unless the clock has passed the
    expiry at one of the two readings of the flush, no other record is ever
    found under that key, and the map the call leaves, record included, is
    what the call hands to the store.  When the call returns [false] the
    registry is untouched and no record is stored. *)
Theorem Ban_expiry (sub_net : CSubNet) (ban_time_offset : Z)
    (since_unix_epoch : bool) (s : State CSubNet) :
  let now := clock (env s) (S (ticks (env s))) in
  let default_ban_time := m_default_ban_time (obj s) in
  let new_ban_entry := (Ban_entry ban_time_offset since_unix_epoch s).1 in
  let s0 := (Ban_entry ban_time_offset since_unix_epoch s).2 in
  let base := if since_unix_epoch then 0 else now in
  let r := Ban sub_net ban_time_offset since_unix_epoch s in
  let t := ticks (env s0) in
  (ban_time_offset <= 0 ->
     nBanUntil new_ban_entry = int64_add now default_ban_time)
  /\ (0 < ban_time_offset ->
        nBanUntil new_ban_entry = int64_add base ban_time_offset)
  /\ (ban_time_offset <= 0 -> int64_range (now + default_ban_time) ->
        nBanUntil new_ban_entry = now + default_ban_time)
  /\ (0 < ban_time_offset -> int64_range (base + ban_time_offset) ->
        nBanUntil new_ban_entry = base + ban_time_offset)
  /\ r.1 = (Ban_locked sub_net new_ban_entry s0).1
  /\ (r.1 = true ->
        m_banned (obj (Ban_locked sub_net new_ban_entry s0).2) !! sub_net
        = Some new_ban_entry)
  /\ nCreateTime new_ban_entry = clock (env s) (ticks (env s))
  /\ (r.1 = true ->
        m_banned (obj r.2) !! sub_net
        = (if (clock (env s) t >? nBanUntil new_ban_entry)
              || (clock (env s) (S t) >? nBanUntil new_ban_entry)
           then None else Some new_ban_entry))
  /\ (r.1 = true ->
        forall e, m_banned (obj r.2) !! sub_net = Some e ->
                  e = new_ban_entry)
  /\ (r.1 = true ->
        clock (env s) t <= nBanUntil new_ban_entry ->
        clock (env s) (S t) <= nBanUntil new_ban_entry ->
        exists e, m_banned (obj r.2) !! sub_net = Some e
                  /\ nCreateTime e = clock (env s) (ticks (env s))
                  /\ (ban_time_offset <= 0 ->
                      nBanUntil e = int64_add now default_ban_time)
                  /\ (0 < ban_time_offset ->
                      nBanUntil e = int64_add base ban_time_offset))
  /\ (r.1 = true ->
        EvDbWrite (m_banned (obj r.2)) (write_ok (env s) (writes (env s)))
          ∈ events_of (Ban sub_net ban_time_offset since_unix_epoch) s)
  /\ (r.1 = false ->
        obj r.2 = obj s
        /\ events_of (Ban sub_net ban_time_offset since_unix_epoch) s
           = [EvLock; EvUnlock]).
Proof.
  cbv zeta.
  destruct (Ban_entry_expiry sub_net ban_time_offset since_unix_epoch s)
    as (H1 & H2 & H3 & H4 & H5 & H6).
  cbv zeta in H1, H2, H3, H4, H5, H6.
  split_and!; [exact H1|exact H2|exact H3|exact H4|exact H5|exact H6|..].
  - by rewrite Ban_entry_run.
  - rewrite Ban_entry_run. cbn [fst snd]. rewrite Ban_run. cbv zeta.
    destruct (rejected _ _ _) eqn:Hr; cbn [fst]; [done|]. intros _.
    pose proof (Ban_stored sub_net ban_time_offset since_unix_epoch s Hr)
      as [Hl _].
    cbv zeta in Hl. rewrite Ban_run in Hl. cbv zeta in Hl.
    rewrite Hr in Hl. exact Hl.
  - rewrite Ban_entry_run. cbn [fst snd]. rewrite Ban_run. cbv zeta.
    destruct (rejected _ _ _) eqn:Hr; cbn [fst]; [done|]. intros _ e.
    pose proof (Ban_stored sub_net ban_time_offset since_unix_epoch s Hr)
      as [Hl _].
    cbv zeta in Hl. rewrite Ban_run in Hl. cbv zeta in Hl.
    rewrite Hr in Hl. rewrite Hl.
    destruct (_ || _); [done|]. by intros [= <-].
  - rewrite Ban_entry_run in *. cbn [fst snd] in *. rewrite Ban_run.
    cbv zeta.
    destruct (rejected _ _ _) eqn:Hr; cbn [fst]; [done|]. intros _ Ht1 Ht2.
    pose proof (Ban_stored sub_net ban_time_offset since_unix_epoch s Hr)
      as [Hl _].
    cbv zeta in Hl. rewrite Ban_run in Hl. cbv zeta in Hl.
    rewrite Hr in Hl.
    exists (candidate_entry ban_time_offset since_unix_epoch s).
    split_and!; [|done|exact H1|exact H2].
    rewrite Hl. rewrite (proj2 (gtb_false _ _) Ht1).
    by rewrite (proj2 (gtb_false _ _) Ht2).
  - rewrite Ban_run. cbv zeta.
    destruct (rejected _ _ _) eqn:Hr; cbn [fst]; [done|]. intros _.
    pose proof (Ban_stored sub_net ban_time_offset since_unix_epoch s Hr)
      as [_ Hev].
    cbv zeta in Hev. rewrite Ban_run in Hev. cbv zeta in Hev.
    rewrite Hr in Hev. exact Hev.
  - intros Hfalse. split.
    + revert Hfalse. rewrite Ban_run. cbv zeta.
      destruct (rejected _ _ _); cbn [fst snd log obj]; [|done].
      intros _. apply after_candidate_obj.
    + rewrite Ban_events, Hfalse. done.
Qed.


Lemma sweep_events_empty (x : State CSubNet) :
  m_banned (obj x) = ∅ -> sweep_events x = [EvLock; EvUnlock].
Proof.
  intros Hb. unfold sweep_events. by rewrite Hb, map_to_list_empty.
Qed.

(** The events of a flush of a dirty registry that bans nothing. *)
Lemma dump_events_cleared (x : State CSubNet) :
  m_banned (obj x) = ∅ -> m_is_dirty (obj x) = true ->
  dump_events x
  = [EvLock; EvUnlock; EvLock; EvUnlock; EvLock; EvLock; EvUnlock; EvUnlock;
     EvDbWrite ∅ (write_ok (env x) (writes (env x)))]
    ++ (if write_ok (env x) (writes (env x)) then [EvLock; EvUnlock] else []).
Proof.
  intros Hb Hd. unfold dump_events. cbv zeta.
  rewrite (sweep_events_empty x Hb).
  set (s1 := log [EvLock; EvUnlock] (sweep_state x)).
  assert (H1d : m_is_dirty (obj s1) = true).
  { change (m_is_dirty (obj s1)) with (m_is_dirty (obj (sweep_state x))).
    by rewrite sweep_state_dirty, Hd. }
  assert (H1b : m_banned (obj s1) = ∅).
  { change (m_banned (obj s1)) with (m_banned (obj (sweep_state x))).
    by rewrite sweep_state_banned, Hb, live_entries_empty. }
  clearbody s1. rewrite H1d, (sweep_events_empty s1 H1b).
  rewrite sweep_state_banned, H1b, live_entries_empty. done.
Qed.

(** Everything a call of [ClearBanned] emits. *)
Lemma ClearBanned_trace (s : State CSubNet) :
  events_of ClearBanned s
  = [EvLock; EvUnlock; EvLock; EvUnlock; EvLock; EvUnlock;
     EvLock; EvLock; EvUnlock; EvUnlock;
     EvDbWrite ∅ (write_ok (env s) (writes (env s)))]
    ++ (if write_ok (env s) (writes (env s)) then [EvLock; EvUnlock] else [])
    ++ (if m_client_interface (obj s) then [EvBannedListChanged] else []).
Proof.
  rewrite ClearBanned_events, DumpBanlist_events, ClearBanned_locked_run.
  cbn [snd].
  set (X := log [EvLock; EvUnlock] (with_banned ∅ true s)).
  assert (HXb : m_banned (obj X) = ∅) by reflexivity.
  assert (HXd : m_is_dirty (obj X) = true) by reflexivity.
  assert (HXw : writes (env X) = writes (env s)) by reflexivity.
  assert (HXo : write_ok (env X) = write_ok (env s)) by reflexivity.
  clearbody X.
  rewrite (dump_events_cleared X HXb HXd), HXw, HXo.
  unfold notification. by rewrite <- !app_assoc.
Qed.

(** The only map a call of [ClearBanned] hands to the store is the empty
    one. *)
Lemma ClearBanned_writes (s : State CSubNet) (banmap : banmap_t) (r : bool) :
  EvDbWrite banmap r ∈ events_of ClearBanned s <->
  banmap = ∅ /\ r = write_ok (env s) (writes (env s)).
Proof.
  split.
  - rewrite ClearBanned_events, DumpBanlist_events, ClearBanned_locked_run.
    cbn [snd].
    set (X := log [EvLock; EvUnlock] (with_banned ∅ true s)).
    assert (HXb : m_banned (obj X) = ∅) by reflexivity.
    assert (HXw : writes (env X) = writes (env s)) by reflexivity.
    assert (HXo : write_ok (env X) = write_ok (env s)) by reflexivity.
    clearbody X.
    intros [Hin|[Hin|Hin]%elem_of_app]%elem_of_app.
    + rewrite !elem_of_cons, elem_of_nil in Hin. intuition discriminate.
    + apply dump_events_write in Hin as (_ & -> & ->).
      by rewrite HXb, HXw, HXo, !live_entries_empty.
    + unfold notification in Hin. destruct (m_client_interface _);
        rewrite ?elem_of_cons, elem_of_nil in Hin; intuition discriminate.
  - intros [-> ->]. by destruct (ClearBanned_effect s) as (_ & _ & _ & _ & _ & ?).
Qed.

(** C8, as the code has it.  After each of two successive [ClearBanned]
    the banned map is empty, and it is already empty when the lock is
    released, before the flush.  Each call sets the dirty flag whatever the
    map held and flushes: each emits the same events, with one write, of
    the empty map, as the only write, followed by the notification when a
    UI is attached; and the registry is dirty after a call exactly when
    that call's write failed.  The second call is therefore not idle: it
    writes again, and it notifies the UI again when there is one. *)
Theorem ClearBanned_twice (s : State CSubNet) :
  let s1 := (ClearBanned s).2 in
  let s2 := (ClearBanned s1).2 in
  let ok1 := write_ok (env s) (writes (env s)) in
  let ok2 := write_ok (env s) (S (writes (env s))) in
  let events := fun ok : bool =>
    [EvLock; EvUnlock; EvLock; EvUnlock; EvLock; EvUnlock;
     EvLock; EvLock; EvUnlock; EvUnlock; EvDbWrite ∅ ok]
    ++ (if ok then [EvLock; EvUnlock] else [])
    ++ (if m_client_interface (obj s) then [EvBannedListChanged] else []) in
  m_banned (obj s1) = ∅
  /\ m_banned (obj s2) = ∅
  /\ m_is_dirty (obj (ClearBanned_locked s).2) = true
  /\ m_is_dirty (obj (ClearBanned_locked s1).2) = true
  /\ m_is_dirty (obj s1) = negb ok1
  /\ m_is_dirty (obj s2) = negb ok2
  /\ writes (env s1) = S (writes (env s))
  /\ writes (env s2) = S (writes (env s1))
  /\ EvDbWrite ∅ ok2 ∈ events_of ClearBanned s1
  /\ (m_client_interface (obj s) = true ->
      EvBannedListChanged ∈ events_of ClearBanned s1)
  /\ m_banned (obj (ClearBanned_locked s).2) = ∅
  /\ m_banned (obj (ClearBanned_locked s1).2) = ∅
  /\ events_of ClearBanned s = events ok1
  /\ events_of ClearBanned s1 = events ok2
  /\ (forall banmap r,
        EvDbWrite banmap r ∈ events_of ClearBanned s <->
        banmap = ∅ /\ r = ok1)
  /\ (forall banmap r,
        EvDbWrite banmap r ∈ events_of ClearBanned s1 <->
        banmap = ∅ /\ r = ok2)
  /\ (m_client_interface (obj s) = true ->
      EvBannedListChanged ∈ events_of ClearBanned s
      /\ last (events_of ClearBanned s) = Some EvBannedListChanged
      /\ last (events_of ClearBanned s1) = Some EvBannedListChanged).
Proof.
  cbv zeta.
  destruct (ClearBanned_twice_flag s)
    as (H1 & H2 & H3 & H4 & H5 & H6 & H7 & H8 & H9 & H10).
  cbv zeta in H1, H2, H3, H4, H5, H6, H7, H8, H9, H10.
  destruct (ClearBanned_effect s) as (_ & _ & Hw1 & Hwo1 & Hci1 & _).
  cbv zeta in Hw1, Hwo1, Hci1.
  pose proof (ClearBanned_writes s) as Hwr1.
  pose proof (ClearBanned_writes (ClearBanned s).2) as Hwr2.
  rewrite Hw1, Hwo1 in Hwr2.
  split_and!;
    [exact H1|exact H2|exact H3|exact H4|exact H5|exact H6|exact H7|exact H8
    |exact H9|exact H10|..].
  - by rewrite ClearBanned_locked_run.
  - by rewrite ClearBanned_locked_run.
  - apply ClearBanned_trace.
  - by rewrite ClearBanned_trace, Hw1, Hwo1, Hci1.
  - exact Hwr1.
  - exact Hwr2.
  - intros Hci. rewrite !ClearBanned_trace, Hci1, Hci. split_and!.
    + rewrite !elem_of_app. right. right. by left.
    + by rewrite !app_assoc, last_snoc.
    + by rewrite !app_assoc, last_snoc.
Qed.

End BanManProofs.


(** * Worked examples *)

(** Scenario 1: ban 10.0.0.0/24 for 3600 seconds; a query for 10.0.0.5 is
    answered [true]; unbanning the /24 returns [true], and the query is then
    answered [false]. *)
Example ban_query_unban :
  let s1 := (Ban net_10_0_0_24 3600 false empty_state).2 in
  let s2 := (Unban net_10_0_0_24 s1).2 in
  (Ban net_10_0_0_24 3600 false empty_state).1 = true
  /\ (HasBannedAddresses host_10_0_0_5 s1).1 = true
  /\ (Unban net_10_0_0_24 s1).1 = true
  /\ (HasBannedAddresses host_10_0_0_5 s2).1 = false.
Proof. vm_compute. done. Qed.

(** Scenario 2: with 10.0.0.0/16 banned until 8200, banning 10.0.0.0/24 for
    3600 seconds is refused and the registry is as before. *)
Lemma Ban_covered_rejected_witness :
  (Ban net_10_0_0_24 3600 false wide_ban_state).1 = false
  /\ obj (Ban net_10_0_0_24 3600 false wide_ban_state).2 = obj wide_ban_state
  /\ writes (env (Ban net_10_0_0_24 3600 false wide_ban_state).2)
     = writes (env wide_ban_state)
  /\ events_of (Ban net_10_0_0_24 3600 false) wide_ban_state
     = [EvLock; EvUnlock].
Proof.
  apply (Ban_covered_rejected net_10_0_16 net_10_0_0_24 (mkBanEntry 1000 8200)
           3600 false wide_ban_state).
  - reflexivity.
  - vm_compute. reflexivity.
  - vm_compute. discriminate.
Defined.

(** Scenario 3: with 10.0.0.0/24 banned until 4600, banning 10.0.0.0/16 for
    7200 seconds succeeds, removes the /24 and stores the /16. *)
Lemma Ban_broader_longer_absorbs_witness :
  (Ban net_10_0_16 7200 false narrow_ban_state).1 = true
  /\ m_banned (obj (Ban net_10_0_16 7200 false narrow_ban_state).2)
       !! net_10_0_0_24 = None
  /\ m_banned (obj (Ban net_10_0_16 7200 false narrow_ban_state).2)
       !! net_10_0_16 = Some (mkBanEntry 1000 8200)
  /\ m_is_dirty (obj (Ban net_10_0_16 7200 false narrow_ban_state).2) = false.
Proof.
  destruct (Ban_broader_longer_absorbs net_10_0_16 net_10_0_0_24
              (mkBanEntry 1000 4600) 7200 false narrow_ban_state)
    as (Hret & _ & _ & _ & HB & HA & Hdirty).
  - reflexivity.
  - vm_compute. reflexivity.
  - vm_compute. reflexivity.
  - intros C e_C HC. unfold narrow_ban_state, example_state, registry in HC.
    cbn [obj m_banned] in HC. apply lookup_singleton_Some in HC as [<- <-].
    vm_compute. discriminate.
  - split_and!.
    + exact Hret.
    + apply HB. vm_compute. discriminate.
    + apply HA; vm_compute; discriminate.
    + exact Hdirty.
Defined.

(** With nothing banned and a default ban time of a day, a ban with offset
    zero "since the epoch" lasts until now plus one day; an offset of 3600
    since the epoch lasts until 3600; the same offset from now, until 4600,
    and the call leaves that record under the banned key. *)
Lemma Ban_expiry_witness :
  nBanUntil (Ban_entry 0 true empty_state).1 = 1000 + 86400
  /\ nBanUntil (Ban_entry 3600 true empty_state).1 = 0 + 3600
  /\ nBanUntil (Ban_entry 3600 false empty_state).1 = 1000 + 3600
  /\ m_banned
       (obj (Ban_locked net_10_0_0_24 (Ban_entry 3600 false empty_state).1
               (Ban_entry 3600 false empty_state).2).2) !! net_10_0_0_24
     = Some (Ban_entry 3600 false empty_state).1
  /\ m_banned (obj (Ban net_10_0_0_24 3600 false empty_state).2)
       !! net_10_0_0_24 = Some (mkBanEntry 1000 4600).
Proof.
  pose proof (Ban_expiry net_10_0_0_24 0 true empty_state) as Hdefault.
  pose proof (Ban_expiry net_10_0_0_24 3600 true empty_state) as Hepoch.
  pose proof (Ban_expiry net_10_0_0_24 3600 false empty_state) as Hnow.
  cbv zeta in Hdefault, Hepoch, Hnow.
  destruct Hdefault as (_ & _ & Hd & _).
  destruct Hepoch as (_ & _ & _ & He & _).
  destruct Hnow as (_ & _ & _ & Hn & _ & Hlocked & _ & Hfinal & _).
  split_and!.
  - apply Hd.
    + lia.
    + vm_compute. split; discriminate.
  - apply He.
    + lia.
    + vm_compute. split; discriminate.
  - apply Hn.
    + lia.
    + vm_compute. split; discriminate.
  - apply Hlocked. vm_compute. reflexivity.
  - rewrite Hfinal by (vm_compute; reflexivity). vm_compute. reflexivity.
Defined.

(** At time 1000 the sweep drops the ban that ran out at 500, keeps the one
    lasting until 2000 and sets the dirty flag; before the sweep a query for
    10.0.0.5 is already answered [false]. *)
Lemma SweepBanned_removes_expired_witness :
  m_banned (obj (SweepBanned stale_ban_state).2) !! net_10_0_0_24 = None
  /\ m_banned (obj (SweepBanned stale_ban_state).2) !! net_192_168_16
     = Some (mkBanEntry 0 2000)
  /\ m_is_dirty (obj (SweepBanned stale_ban_state).2) = true
  /\ (HasBannedAddresses host_10_0_0_5 stale_ban_state).1 = false.
Proof.
  destruct (SweepBanned_removes_expired stale_ban_state)
    as (Hgone & Hkept & _ & Hdirty & _ & Hquery).
  split_and!.
  - apply (Hgone net_10_0_0_24 (mkBanEntry 0 500)).
    + vm_compute. reflexivity.
    + vm_compute. reflexivity.
  - apply (Hkept net_192_168_16 (mkBanEntry 0 2000)).
    + vm_compute. reflexivity.
    + vm_compute. discriminate.
  - apply Hdirty. exists net_10_0_0_24, (mkBanEntry 0 500).
    split; vm_compute; reflexivity.
  - apply Hquery. intros k e Hk Ho.
    unfold stale_ban_state, example_state, registry in Hk.
    cbn [obj m_banned] in Hk.
    apply lookup_insert_Some in Hk as [[<- <-]|[_ Hk]].
    + vm_compute. reflexivity.
    + apply lookup_singleton_Some in Hk as [<- <-].
      vm_compute in Ho. discriminate.
Defined.


(** Clearing an empty registry twice: the second call writes and notifies
    again. *)
Lemma ClearBanned_twice_witness :
  EvBannedListChanged ∈ events_of ClearBanned (ClearBanned empty_state).2
  /\ writes (env (ClearBanned (ClearBanned empty_state).2).2) = 2%nat
  /\ last (events_of ClearBanned empty_state) = Some EvBannedListChanged.
Proof.
  destruct (ClearBanned_twice empty_state)
    as (_ & _ & _ & _ & _ & _ & Hw1 & Hw2 & _ & Hnotify
        & _ & _ & _ & _ & _ & _ & Hfirst).
  split_and!.
  - apply Hnotify. reflexivity.
  - rewrite Hw2, Hw1. reflexivity.
  - apply Hfirst. reflexivity.
Defined.

(** Banning the /16 over the /24 changes the map at the /16; unbanning the
    /24 removes it; clearing an empty registry ends with a notification. *)
Lemma mutation_notifications_witness :
  m_banned (obj narrow_ban_state) !! net_10_0_16
    <> Some (Ban_entry 7200 false narrow_ban_state).1
  /\ m_banned (obj (Unban net_10_0_0_24 narrow_ban_state).2)
       !! net_10_0_0_24 = None
  /\ obj (Unban net_10_0_16 narrow_ban_state).2 = obj narrow_ban_state
  /\ last (events_of ClearBanned empty_state) = Some EvBannedListChanged.
Proof.
  destruct (mutation_notifications narrow_ban_state) as (HBan & HUnban & _).
  destruct (mutation_notifications empty_state) as (_ & _ & _ & HClear).
  split_and!.
  - apply (HBan net_10_0_16 7200 false); vm_compute; reflexivity.
  - apply (HUnban net_10_0_0_24). vm_compute. reflexivity.
  - apply (HUnban net_10_0_16). vm_compute. reflexivity.
  - apply HClear; reflexivity.
Defined.

(** A ban until 1000 seen at time 1000: still returned by [GetBanned], yet
    the address inside it is not reported as banned. *)
Lemma boundary_entry_kept_not_banned_witness :
  (GetBanned boundary_ban_state).1 !! net_10_0_0_24 = Some (mkBanEntry 0 1000)
  /\ m_banned (obj (SweepBanned boundary_ban_state).2) !! net_10_0_0_24
     = Some (mkBanEntry 0 1000)
  /\ (HasBannedAddresses host_10_0_0_5 boundary_ban_state).1 = false.
Proof.
  destruct (boundary_entry_kept_not_banned net_10_0_0_24 (mkBanEntry 0 1000)
              boundary_ban_state) as (Hswept & Hget & _ & Hquery).
  - vm_compute. reflexivity.
  - reflexivity.
  - split_and!; [exact Hget|exact Hswept|apply (Hquery host_10_0_0_5)].
Defined.

(** ** Where the specification and the code part *)

(** C2 as the specification words it (no condition on the other entries):
    with 10.0.0.0/24 banned until 4600 inside 10.0.0.0/8 banned until 100000,
    the ban of 10.0.0.0/16 until 8200 is later than the /24's, yet the /8
    makes the scan return [false]: the /24 stays and the /16 is not stored. *)
Lemma Ban_broader_longer_counterexample :
  ~ (IsSuperset net_10_0_16 net_10_0_0_24 = true ->
     m_banned (obj nested_ban_state) !! net_10_0_0_24
       = Some (mkBanEntry 1000 4600) ->
     nBanUntil (Ban_entry 7200 false nested_ban_state).1 > 4600 ->
     (Ban net_10_0_16 7200 false nested_ban_state).1 = true
     /\ m_banned (obj (Ban net_10_0_16 7200 false nested_ban_state).2)
          !! net_10_0_0_24 = None
     /\ is_Some (m_banned (obj (Ban net_10_0_16 7200 false nested_ban_state).2)
                   !! net_10_0_16)).
Proof.
  intros Hclaim. destruct Hclaim as [Hret _].
  - reflexivity.
  - vm_compute. reflexivity.
  - vm_compute. reflexivity.
  - vm_compute in Hret. discriminate.
Qed.

Example nested_ban_rejected :
  (Ban net_10_0_16 7200 false nested_ban_state).1 = false
  /\ m_banned (obj (Ban net_10_0_16 7200 false nested_ban_state).2)
       !! net_10_0_0_24 = Some (mkBanEntry 1000 4600)
  /\ m_banned (obj (Ban net_10_0_16 7200 false nested_ban_state).2)
       !! net_10_0_16 = None.
Proof. vm_compute. done. Qed.

(** The amended C2 speaks of expiry: at time 5000 the /24 that ran out at
    4600 has not been swept yet; a ban of the /16 until 4700 (since the
    epoch) is later than the /24's, returns [true], and is itself swept by
    the flush that ends the call. *)
Example ban_expired_on_arrival :
  let late :=
    example_state {[ net_10_0_0_24 := mkBanEntry 1000 4600 ]} false 5000 true in
  (Ban net_10_0_16 4700 true late).1 = true
  /\ m_banned (obj (Ban net_10_0_16 4700 true late).2) = ∅.
Proof. vm_compute. done. Qed.

(** C8 as the specification words it: the map is empty after each of two
    calls and the first call marks the registry dirty, but the second call
    does not leave the flag alone.  The flush of the first call has cleared
    it, and the locked block of the second sets it again. *)
Lemma ClearBanned_twice_counterexample :
  ~ (m_banned (obj (ClearBanned empty_state).2) = ∅
     /\ m_banned (obj (ClearBanned (ClearBanned empty_state).2).2) = ∅
     /\ m_is_dirty (obj (ClearBanned_locked empty_state).2) = true
     /\ m_is_dirty (obj (ClearBanned_locked (ClearBanned empty_state).2).2)
        = m_is_dirty (obj (ClearBanned empty_state).2)).
Proof.
  intros (_ & _ & _ & Hidle). vm_compute in Hidle. discriminate.
Qed.

Example ClearBanned_twice_writes_twice :
  m_is_dirty (obj (ClearBanned empty_state).2) = false
  /\ writes (env (ClearBanned empty_state).2) = 1%nat
  /\ writes (env (ClearBanned (ClearBanned empty_state).2).2) = 2%nat.
Proof. vm_compute. done. Qed.

(** C9 as the specification words it, for [ClearBanned] on an empty map with
    a UI attached: the banned map is the same before and after, and the UI
    is notified nevertheless. *)
Lemma ClearBanned_notifies_counterexample :
  ~ (EvBannedListChanged ∈ events_of ClearBanned empty_state
     <-> m_banned (obj (ClearBanned empty_state).2)
         <> m_banned (obj empty_state)).
Proof.
  intros [Hchanged _]. apply Hchanged.
  - rewrite ClearBanned_events, !elem_of_app. right. right.
    apply list_elem_of_singleton. reflexivity.
  - vm_compute. reflexivity.
Qed.

(** The order of events of that call: the write precedes the notification. *)
Example ClearBanned_empty_events :
  events_of ClearBanned empty_state
  = [EvLock; EvUnlock;                     (* the block of [ClearBanned] *)
     EvLock; EvUnlock;                     (* [SweepBanned] *)
     EvLock; EvUnlock;                     (* [BannedSetIsDirty] *)
     EvLock; EvLock; EvUnlock; EvUnlock;   (* [GetBanned], sweeping *)
     EvDbWrite ∅ true;
     EvLock; EvUnlock;                     (* [SetBannedSetDirty] *)
     EvBannedListChanged].
Proof. vm_compute. reflexivity. Qed.

(** ** Examples for the further properties *)

Ltac find_event :=
  vm_compute;
  repeat first [apply list_elem_of_here | apply list_elem_of_further].

(** The flush of the unsaved /24 hands the store the map that is left in
    the registry. *)
Lemma DumpBanlist_snapshot_witness :
  m_banned (obj (DumpBanlist unsaved_ban_state).2)
  = {[ net_10_0_0_24 := mkBanEntry 1000 4600 ]}
  /\ m_is_dirty (obj (SweepBanned unsaved_ban_state).2) = true.
Proof.
  destruct (DumpBanlist_snapshot unsaved_ban_state
              {[ net_10_0_0_24 := mkBanEntry 1000 4600 ]} true)
    as (Hmap & _ & Hdirty & _).
  - find_event.
  - split; [symmetry; exact Hmap|exact Hdirty].
Defined.

(** Destroyed at time 1000 and rebuilt at time 2000 from what was saved,
    the registry holds the /24 again, clean. *)
Lemma shutdown_startup_roundtrip_witness :
  m_banned
    (obj (BanMan_built true 86400
            (Some {[ net_10_0_0_24 := mkBanEntry 1000 4600 ]})
            (still_world 2000 true)))
  = m_banned (obj (BanMan_delete unsaved_ban_state).2)
  /\ m_is_dirty
       (obj (BanMan_built true 86400
               (Some {[ net_10_0_0_24 := mkBanEntry 1000 4600 ]})
               (still_world 2000 true))) = false.
Proof.
  destruct (shutdown_startup_roundtrip unsaved_ban_state
              {[ net_10_0_0_24 := mkBanEntry 1000 4600 ]} true 86400
              (still_world 2000 true)) as (Hmap & Hclean & _).
  - find_event.
  - intros k e [<- <-]%lookup_singleton_Some. vm_compute. discriminate.
  - split; [exact Hmap|exact Hclean].
Defined.

(** A second flush right after the first writes nothing more. *)
Lemma DumpBanlist_again_witness :
  writes (env (DumpBanlist (DumpBanlist unsaved_ban_state).2).2) = 1%nat
  /\ events_of DumpBanlist (DumpBanlist unsaved_ban_state).2
     = [EvLock; EvUnlock; EvLock; EvUnlock].
Proof.
  destruct (DumpBanlist_again unsaved_ban_state) as [_ Hidle].
  destruct Hidle as (_ & Hw & Hev).
  - vm_compute. reflexivity.
  - assert (Hmap : m_banned (obj (DumpBanlist unsaved_ban_state).2)
                   = {[ net_10_0_0_24 := mkBanEntry 1000 4600 ]})
      by (vm_compute; reflexivity).
    intros k e Hk. rewrite Hmap in Hk.
    apply lookup_singleton_Some in Hk as [<- <-]. vm_compute. discriminate.
  - split; [rewrite Hw; vm_compute; reflexivity|exact Hev].
Defined.

(** Banning 10.0.0.0/16 leaves the ban of 192.168.0.0/16 alone. *)
Lemma Ban_other_entries_witness :
  m_banned (obj (Ban net_10_0_16 7200 false two_ban_state).2)
    !! net_192_168_16 = Some (mkBanEntry 1000 9000).
Proof.
  apply (Ban_other_entries net_10_0_16 net_192_168_16 (mkBanEntry 1000 9000)
           7200 false two_ban_state).
  - vm_compute. reflexivity.
  - vm_compute. discriminate.
  - split_and!.
    + vm_compute. reflexivity.
    + vm_compute. intros [? _]. discriminate.
    + vm_compute. discriminate.
    + vm_compute. discriminate.
Defined.

(** Right after banning 10.0.0.0/24 for an hour the subnet is banned. *)
Lemma Ban_then_banned_witness :
  (HasBannedAddresses net_10_0_0_24
     (Ban net_10_0_0_24 3600 false empty_state).2).1 = true.
Proof.
  apply (Ban_then_banned net_10_0_0_24 3600 false empty_state).
  - reflexivity.
  - intros n. vm_compute. reflexivity.
Defined.

(** The /24 banned until 4600 is covered by the /16 until 8200 that takes
    its place. *)
Lemma Ban_locked_keeps_coverage_witness :
  exists k' e',
    m_banned
      (obj (Ban_locked net_10_0_16 (mkBanEntry 1000 8200)
              narrow_ban_state).2) !! k' = Some e'
    /\ (k' = net_10_0_0_24 \/ IsSuperset k' net_10_0_0_24 = true)
    /\ 4600 <= nBanUntil e'.
Proof.
  apply (proj2 (Ban_locked_keeps_coverage net_10_0_16 (mkBanEntry 1000 8200)
                  narrow_ban_state) eq_refl
           net_10_0_0_24 (mkBanEntry 1000 4600)).
  vm_compute. reflexivity.
Defined.

(** A registry with a single ban is consolidated, and stays so. *)
Lemma no_shadowed_preserved_witness :
  no_shadowed (m_banned (obj (Ban net_10_0_16 7200 false narrow_ban_state).2))
  /\ no_shadowed (m_banned (obj (DumpBanlist narrow_ban_state).2)).
Proof.
  destruct (no_shadowed_preserved narrow_ban_state) as (HBan & _ & _ & _ & _ & _ & HDump).
  - intros k1 e1 k2 e2 H1 H2 Hne.
    unfold narrow_ban_state, example_state, registry in H1, H2.
    cbn [obj m_banned] in H1, H2.
    apply lookup_singleton_Some in H1 as [<- _].
    apply lookup_singleton_Some in H2 as [<- _]. done.
  - split; [apply HBan|exact HDump].
Defined.

(** Unbanning the /24 leaves 192.168.0.0/16 banned; unbanning it again
    returns [false]. *)
Lemma Unban_exact_key_witness :
  m_banned (obj (Unban net_10_0_0_24 two_ban_state).2) !! net_192_168_16
  = Some (mkBanEntry 1000 9000)
  /\ (Unban net_10_0_0_24 (Unban net_10_0_0_24 two_ban_state).2).1 = false.
Proof.
  destruct (Unban_exact_key net_10_0_0_24 two_ban_state)
    as (Hothers & Hagain & _).
  - vm_compute. reflexivity.
  - split; [|exact Hagain].
    apply (Hothers net_192_168_16 (mkBanEntry 1000 9000)).
    + vm_compute. discriminate.
    + split_and!; vm_compute; first [reflexivity | discriminate].
Defined.

(** With the clock standing still, a second sweep finds nothing to do. *)
Lemma SweepBanned_twice_witness :
  obj (SweepBanned (SweepBanned stale_ban_state).2).2
  = obj (SweepBanned stale_ban_state).2
  /\ events_of SweepBanned (SweepBanned stale_ban_state).2
     = [EvLock; EvUnlock].
Proof.
  apply (proj2 (SweepBanned_twice stale_ban_state)).
  vm_compute. discriminate.
Defined.

(** Reading a list with an expired ban notifies the UI under the lock and
    makes the next flush write. *)
Lemma GetBanned_sweeps_witness :
  events_of GetBanned stale_ban_state
  = [EvLock; EvLock; EvUnlock; EvBannedListChanged; EvUnlock]
  /\ writes (env (DumpBanlist (GetBanned stale_ban_state).2).2) = 1%nat.
Proof.
  destruct (GetBanned_sweeps stale_ban_state)
    as (_ & _ & _ & _ & Hflush & Hnotify & _).
  assert (Hremoved :
    exists k e, m_banned (obj stale_ban_state) !! k = Some e
                /\ clock (env stale_ban_state) (ticks (env stale_ban_state))
                   > nBanUntil e).
  { exists net_10_0_0_24, (mkBanEntry 0 500). split; vm_compute; reflexivity. }
  split.
  - apply Hnotify; [exact Hremoved|reflexivity].
  - rewrite (Hflush Hremoved). reflexivity.
Defined.

(** Unbanning the /24 writes the emptied map and leaves the registry clean. *)
Lemma mutation_is_saved_witness :
  writes (env (Unban net_10_0_0_24 narrow_ban_state).2) = 1%nat
  /\ m_is_dirty (obj (Unban net_10_0_0_24 narrow_ban_state).2) = false.
Proof.
  destruct (mutation_is_saved narrow_ban_state) as [_ HUnban].
  destruct (HUnban net_10_0_0_24) as [Hsaved _].
  destruct Hsaved as (_ & Hw & Hd).
  - vm_compute. reflexivity.
  - split; [exact Hw|exact Hd].
Defined.
